(** * Twitter/X video downloader: a shallow embedding of [twitter_downloader.py]

    The program is a thin command-line shell around the [yt_dlp] library.
    Python strings are sequences of Unicode code points, the console, the
    file system and the library are an explicit world threaded through a
    state-and-exception monad, and what the program does is read off the
    chronological trace of that world. *)

From Stdlib Require Import NArith ZArith Ascii String DecimalString Lia.
From stdpp Require Import base option list sorting gmap.

Local Open Scope N_scope.

(** ** Python strings *)

(** A [str] is a list of code points. *)
Abbreviation str := (list N).

(** Decoder of the UTF-8 bytes of a Rocq string literal, so that the
    literals of the source can be written as they are. *)
Fixpoint utf8_decode (bs : list N) : str :=
  match bs with
  | [] => []
  | b :: bs1 =>
      if b <? 128 then b :: utf8_decode bs1
      else match bs1 with
      | [] => [b]
      | b1 :: bs2 =>
          if b <? 224 then ((b - 192) * 64 + (b1 - 128)) :: utf8_decode bs2
          else match bs2 with
          | [] => [b; b1]
          | b2 :: bs3 =>
              if b <? 240
              then ((b - 224) * 4096 + (b1 - 128) * 64 + (b2 - 128)) :: utf8_decode bs3
              else match bs3 with
              | [] => [b; b1; b2]
              | b3 :: bs4 =>
                  ((b - 240) * 262144 + (b1 - 128) * 4096 + (b2 - 128) * 64 + (b3 - 128))
                    :: utf8_decode bs4
              end
          end
      end
  end.

Definition py (s : string) : str :=
  utf8_decode (map N_of_ascii (list_ascii_of_string s)).

(** [str.isspace] of one character: the code points CPython's
    [_PyUnicode_IsWhitespace] accepts. *)
Definition is_space (c : N) : bool :=
  ((9 <=? c) && (c <=? 13)) || ((28 <=? c) && (c <=? 32))
  || (c =? 133) || (c =? 160) || (c =? 5760)
  || ((8192 <=? c) && (c <=? 8202))
  || (c =? 8232) || (c =? 8233) || (c =? 8239) || (c =? 8287) || (c =? 12288).

(** [s.lstrip()], [s.rstrip()] and [s.strip()] with no argument. *)
Fixpoint lstrip (s : str) : str :=
  match s with
  | [] => []
  | c :: s' => if is_space c then lstrip s' else s
  end.

Definition rstrip (s : str) : str := rev (lstrip (rev s)).

Definition strip (s : str) : str := rstrip (lstrip s).

(** [sep.join(parts)]. *)
Fixpoint join (sep : str) (parts : list str) : str :=
  match parts with
  | [] => []
  | [p] => p
  | p :: ps => p ++ sep ++ join sep ps
  end.

(** [s * n] for a string [s]. *)
Fixpoint repeat_str (s : str) (n : nat) : str :=
  match n with
  | O => []
  | S n' => s ++ repeat_str s n'
  end.

(** [str(i)] for an integer. *)
Definition str_of_Z (z : Z) : str := py (NilZero.string_of_int (Z.to_int z)).
Definition str_of_nat (n : nat) : str := str_of_Z (Z.of_nat n).

(** Truth value of a string: the empty one is false. *)
Definition truthy (s : str) : bool :=
  match s with [] => false | _ :: _ => true end.

(** [a or b] on strings. *)
Definition or_else (a b : str) : str := if truthy a then a else b.

(** ** Regular expressions and [re.match] *)

(** Abstract syntax of the patterns. A symbol is a character class given by
    its membership test, which covers literals, [.] and [\d]. *)
Inductive regex : Type :=
| Void
| Eps
| Sym (p : N -> bool)
| Seq (r1 r2 : regex)
| Alt (r1 r2 : regex)
| Star (r : regex).

Definition Chr (c : N) : regex := Sym (N.eqb c).
Definition Opt (r : regex) : regex := Alt r Eps.
Definition Plus (r : regex) : regex := Seq r (Star r).

Fixpoint Lit (s : str) : regex :=
  match s with
  | [] => Eps
  | c :: s' => Seq (Chr c) (Lit s')
  end.

(** [.] without DOTALL: any character but the newline. *)
Definition dot (c : N) : bool := negb (c =? 10).

(** The words a pattern denotes. *)
Inductive lang : regex -> str -> Prop :=
| lang_eps : lang Eps []
| lang_sym p c : p c = true -> lang (Sym p) [c]
| lang_seq r1 r2 s1 s2 : lang r1 s1 -> lang r2 s2 -> lang (Seq r1 r2) (s1 ++ s2)
| lang_alt_l r1 r2 s : lang r1 s -> lang (Alt r1 r2) s
| lang_alt_r r1 r2 s : lang r2 s -> lang (Alt r1 r2) s
| lang_star_nil r : lang (Star r) []
| lang_star_app r s1 s2 : lang r s1 -> lang (Star r) s2 -> lang (Star r) (s1 ++ s2).

Fixpoint nullable (r : regex) : bool :=
  match r with
  | Void => false
  | Eps => true
  | Sym _ => false
  | Seq r1 r2 => nullable r1 && nullable r2
  | Alt r1 r2 => nullable r1 || nullable r2
  | Star _ => true
  end.

Fixpoint deriv (c : N) (r : regex) : regex :=
  match r with
  | Void => Void
  | Eps => Void
  | Sym p => if p c then Eps else Void
  | Seq r1 r2 =>
      if nullable r1
      then Alt (Seq (deriv c r1) r2) (deriv c r2)
      else Seq (deriv c r1) r2
  | Alt r1 r2 => Alt (deriv c r1) (deriv c r2)
  | Star r1 => Seq (deriv c r1) (Star r1)
  end.

(** [bool(re.match(r, s))]: is some prefix of [s], starting at its first
    character, a word of [r]? *)
Fixpoint re_match (r : regex) (s : str) : bool :=
  nullable r ||
  match s with
  | [] => false
  | c :: s' => re_match (deriv c r) s'
  end.

(** ** Exceptions *)

(** The exception classes the program meets. The first three derive from
    [BaseException] only; every other one derives from [Exception]. *)
Inductive exc_class : Type :=
| KeyboardInterrupt
| SystemExit
| GeneratorExit
| DownloadError                 (* yt_dlp.utils.DownloadError *)
| FileNotFoundError
| FileExistsError
| NotADirectoryError
| EOFError
| ImportError
| CalledProcessError            (* subprocess.CalledProcessError *)
| OtherException (name : str).  (* any other subclass of Exception *)

(** [isinstance(e, Exception)] *)
Definition is_Exception (c : exc_class) : bool :=
  match c with
  | KeyboardInterrupt | SystemExit | GeneratorExit => false
  | _ => true
  end.

Definition is_DownloadError (c : exc_class) : bool :=
  match c with DownloadError => true | _ => false end.

Definition is_ImportError (c : exc_class) : bool :=
  match c with ImportError => true | _ => false end.

Definition is_FileNotFoundError (c : exc_class) : bool :=
  match c with FileNotFoundError => true | _ => false end.

Definition is_EOFError (c : exc_class) : bool :=
  match c with EOFError => true | _ => false end.

(** An exception object: its class and [str(e)]. *)
Record exc : Type := mkExc { exc_cls : exc_class; exc_msg : str }.

Inductive result (A : Type) : Type :=
| Ok (a : A)
| Raise (e : exc).
Arguments Ok {A} a.
Arguments Raise {A} e.

(** ** The extraction library as seen by the program *)

(** Value of an entry of the options dictionary given to [YoutubeDL]. *)
Inductive optval : Type :=
| OStr (s : str)
| OBool (b : bool).

(** A record of [info["formats"]]; [height] is [f.get("height")], [None]
    standing for an absent key as well as for a [None] value. *)
Record formato_info : Type := mkFormato { height : option Z }.

(** The metadata [extract_info] returns. A text field is [Some s] when the
    key is present and [str] of its value is [s]; an absent ["formats"] key
    is the empty list, which is what [info.get("formats", [])] makes of it. *)
Record info_dict : Type := mkInfo {
  title : option str;
  uploader : option str;
  duration : option str;
  upload_date : option str;
  formats : list formato_info }.

(** What the program does to the outside, in chronological order. *)
Inductive event : Type :=
| EvPrint (text end_ : str)                       (* print(text, end=end_) *)
| EvPrompt (text : str)                           (* prompt of input(text) *)
| EvPip                                           (* pip install yt-dlp -q *)
| EvExtract (o : gmap str optval) (url : str) (download : bool)
| EvPrepare (o : gmap str optval) (i : info_dict).

(** What the program's surroundings decide: the Unicode tables of the
    interpreter, the working directory, the package manager and the
    extraction library. The outcome of a call may depend on everything that
    happened before it, which is the [list event] argument. Whether [yt_dlp]
    can be imported once the package manager has returned is for the
    surroundings to say as well: the program does not check it. *)
Record runtime : Type := mkRuntime {
  unicode_decimal : N -> bool;          (* category Nd, the class \d *)
  str_lower : str -> str;               (* str.lower *)
  os_path_abspath : str -> str;         (* os.path.abspath *)
  pip_install : list event -> result unit;
  pip_deja_importable : list event -> bool;
  ydl_extract_info : list event -> gmap str optval -> str -> bool -> result info_dict;
  ydl_prepare_filename : list event -> gmap str optval -> info_dict -> result str }.

(** ** The file system *)

(** What the directory creation of line 44 sees of the file system: which
    paths name a directory and which name something else. Permissions, limits
    on names, symbolic links and the meaning the system gives to [".."] are
    left out, and so is what the extraction library writes; statements that
    depend on the outcome of a creation therefore take that outcome as a
    hypothesis. *)
Inductive node : Type := Dir | File.

(** A [pathlib.Path]: whether it starts at the root, and its components,
    the innermost first (so that the tail is [self.parent]). *)
Abbreviation path := (bool * list (list N))%type.

Fixpoint split_slash (s : str) : list str :=
  match s with
  | [] => [[]]
  | c :: s' =>
      if c =? 47 then [] :: split_slash s'
      else match split_slash s' with
           | [] => [[c]]
           | p :: ps => (c :: p) :: ps
           end
  end.

Definition is_name (p : str) : bool :=
  match p with
  | [] => false
  | [46] => false
  | _ => true
  end.

(** [Path(s)]: empty and ["."] components are dropped. *)
Definition Path (s : str) : path :=
  (match s with 47 :: _ => true | _ => false end,
   rev (filter (fun p => is_name p = true) (split_slash s))).

(** The node a path names: the root and the working directory are always
    there, every other path is looked up. *)
Definition fs_lookup (fs : gmap path node) (p : path) : option node :=
  match p.2 with
  | [] => Some Dir
  | _ :: _ => fs !! p
  end.

(** [os.mkdir(p)] *)
Definition os_mkdir (p : path) (fs : gmap path node) : result (gmap path node) :=
  match fs_lookup fs p with
  | Some _ => Raise (mkExc FileExistsError (py "[Errno 17] File exists"))
  | None =>
      match fs_lookup fs (p.1, tail p.2) with
      | None => Raise (mkExc FileNotFoundError (py "[Errno 2] No such file or directory"))
      | Some File => Raise (mkExc NotADirectoryError (py "[Errno 20] Not a directory"))
      | Some Dir => Ok (<[p := Dir]> fs)
      end
  end.

Definition Path_is_dir (fs : gmap path node) (p : path) : bool :=
  match fs_lookup fs p with
  | Some Dir => true
  | _ => false
  end.

(** [p.mkdir(parents=False, exist_ok=exist_ok)] *)
Definition Path_mkdir_flat (exist_ok : bool) (p : path) (fs : gmap path node)
  : result (gmap path node) :=
  match os_mkdir p fs with
  | Ok fs' => Ok fs'
  | Raise e =>
      if is_FileNotFoundError (exc_cls e) then Raise e
      else if exist_ok && Path_is_dir fs p then Ok fs
      else Raise e
  end.

(** [p.mkdir(parents=True, exist_ok=exist_ok)], as [pathlib] writes it: try
    [os.mkdir]; when the parent is missing make the parent first (with
    [exist_ok=True]) and then the directory itself without [parents]; on any
    other [OSError] give in only if the path is a directory already. *)
Fixpoint Path_mkdir_parents (anchor : bool) (rparts : list str) (exist_ok : bool)
    (fs : gmap path node) : result (gmap path node) :=
  match os_mkdir (anchor, rparts) fs with
  | Ok fs' => Ok fs'
  | Raise e =>
      if is_FileNotFoundError (exc_cls e) then
        match rparts with
        | [] => Raise e
        | _ :: parent =>
            match Path_mkdir_parents anchor parent true fs with
            | Ok fs1 => Path_mkdir_flat exist_ok (anchor, rparts) fs1
            | Raise e1 => Raise e1
            end
        end
      else if exist_ok && Path_is_dir fs (anchor, rparts) then Ok fs
      else Raise e
  end.

(** [os.path.join(a, b)] of [posixpath]. *)
Definition os_path_join (a b : str) : str :=
  match b with
  | 47 :: _ => b
  | _ => if negb (truthy a) || (match last a with Some 47 => true | _ => false end)
         then a ++ b
         else a ++ 47 :: b
  end.

(** ** The world and the monad of the program *)

Record world : Type := mkWorld {
  stdin : list str;                 (* the lines still to be read *)
  trace : list event;               (* what happened so far *)
  fs : gmap path node;
  yt_dlp_importable : bool }.

Definition M (A : Type) : Type := world -> result A * world.

Definition ret {A} (a : A) : M A := fun w => (Ok a, w).

Definition bind {A B} (m : M A) (k : A -> M B) : M B :=
  fun w =>
    match m w with
    | (Ok a, w') => k a w'
    | (Raise e, w') => (Raise e, w')
    end.

Definition raise {A} (e : exc) : M A := fun w => (Raise e, w).

(** [try: m  except ...: h]; [h e] is [None] when no clause matches [e]. *)
Definition try_except {A} (m : M A) (h : exc -> option (M A)) : M A :=
  fun w =>
    match m w with
    | (Ok a, w') => (Ok a, w')
    | (Raise e, w') =>
        match h e with
        | Some k => k w'
        | None => (Raise e, w')
        end
    end.

#[global] Instance M_ret : MRet M := @ret.
#[global] Instance M_bind : MBind M := fun A B k m => bind m k.

Definition emit (ev : event) (w : world) : world :=
  mkWorld (stdin w) (trace w ++ [ev]) (fs w) (yt_dlp_importable w).

Definition nl : str := [10].

Definition print_end (text end_ : str) : M unit :=
  fun w => (Ok tt, emit (EvPrint text end_) w).

Definition print (text : str) : M unit := print_end text nl.

(** [input(prompt)]: the prompt is written, then a line is read; at the end
    of the input [EOFError] is raised. *)
Definition input (prompt : str) : M str :=
  fun w =>
    let w1 := emit (EvPrompt prompt) w in
    match stdin w with
    | [] => (Raise (mkExc EOFError (py "EOF when reading a line")), w1)
    | l :: rest => (Ok l, mkWorld rest (trace w1) (fs w1) (yt_dlp_importable w1))
    end.

(** [import yt_dlp] *)
Definition import_yt_dlp : M unit :=
  fun w =>
    if yt_dlp_importable w then (Ok tt, w)
    else (Raise (mkExc ImportError (py "No module named 'yt_dlp'")), w).

(** [Path(carpeta).mkdir(parents=True, exist_ok=True)] *)
Definition Path_mkdir (carpeta : str) : M unit :=
  fun w =>
    match Path_mkdir_parents (Path carpeta).1 (Path carpeta).2 true (fs w) with
    | Ok fs' => (Ok tt, mkWorld (stdin w) (trace w) fs' (yt_dlp_importable w))
    | Raise e => (Raise e, w)
    end.

(** ** The program *)

Section Program.

Variable rt : runtime.

(** [subprocess.check_call([sys.executable, "-m", "pip", "install",
    "yt-dlp", "-q"])]; when it returns, whether the module can be imported
    from then on is what [pip_deja_importable] says. *)
Definition check_call_pip : M unit :=
  fun w =>
    match pip_install rt (trace w) with
    | Ok _ => (Ok tt, mkWorld (stdin w) (trace w ++ [EvPip]) (fs w)
                        (pip_deja_importable rt (trace w)))
    | Raise e => (Raise e, emit EvPip w)
    end.

(** [ydl.extract_info(url, download=download)] on a [YoutubeDL(o)]: the
    call is recorded and its outcome is the library's; the files the library
    writes are not part of the world. *)
Definition extract_info (o : gmap str optval) (url : str) (download : bool)
  : M info_dict :=
  fun w => (ydl_extract_info rt (trace w) o url download,
            emit (EvExtract o url download) w).

(** [ydl.prepare_filename(info)] on a [YoutubeDL(o)] *)
Definition prepare_filename (o : gmap str optval) (info : info_dict) : M str :=
  fun w => (ydl_prepare_filename rt (trace w) o info, emit (EvPrepare o info) w).

Definition instalar_ytdlp : M bool :=
  try_except
    (import_yt_dlp;; mret true)
    (fun e =>
       if is_ImportError (exc_cls e) then Some (
         print (py "Instalando yt-dlp...");;
         check_call_pip;;
         print (py "yt-dlp instalado correctamente." ++ nl);;
         mret true)
       else None).

(** [patron = r"https?://(www\.)?(twitter\.com|x\.com)/.+/status/\d+"] *)
Definition patron : regex :=
  Seq (Lit (py "http")) (Seq (Opt (Chr 115))
  (Seq (Lit (py "://"))
  (Seq (Opt (Seq (Lit (py "www")) (Chr 46)))
  (Seq (Alt (Seq (Lit (py "twitter")) (Seq (Chr 46) (Lit (py "com"))))
            (Seq (Chr 120) (Seq (Chr 46) (Lit (py "com")))))
  (Seq (Chr 47)
  (Seq (Plus (Sym dot))
  (Seq (Lit (py "/status/"))
       (Plus (Sym (unicode_decimal rt)))))))))).

Definition es_url_valida (url : str) : bool := re_match patron url.

(** The dictionary of lines 47 to 53, and its [.get(calidad, "best")]. *)
Definition formatos : gmap str str :=
  {[ py "best" := py "best";
     py "worst" := py "worst";
     py "720" := py "best[height<=720]";
     py "480" := py "best[height<=480]";
     py "360" := py "best[height<=360]" ]}.

Definition formato_de (calidad : str) : str :=
  default (py "best") (formatos !! calidad).

(** The [opciones] of [descargar_video]. *)
Definition opciones_descarga (carpeta_destino calidad : str) : gmap str optval :=
  {[ py "format" := OStr (formato_de calidad);
     py "outtmpl" := OStr (os_path_join carpeta_destino (py "%(uploader)s_%(id)s.%(ext)s"));
     py "quiet" := OBool false;
     py "no_warnings" := OBool false;
     py "progress" := OBool true ]}.

Definition descargar_video (url carpeta_destino calidad : str) : M (option str) :=
  import_yt_dlp;;
  Path_mkdir carpeta_destino;;
  let opciones := opciones_descarga carpeta_destino calidad in
  print (nl ++ py " Descargando video...");;
  print (py "   URL: " ++ url);;
  print (py "   Destino: " ++ os_path_abspath rt carpeta_destino);;
  print (py "   Calidad: " ++ calidad ++ nl);;
  try_except
    (info ← extract_info opciones url true;
     nombre ← prepare_filename opciones info;
     print (nl ++ py "✅ Video descargado exitosamente!");;
     print (py "   Archivo: " ++ nombre);;
     mret (Some nombre))
    (fun e =>
       if is_DownloadError (exc_cls e) then Some (
         print (nl ++ py "❌ Error al descargar: " ++ exc_msg e);;
         print (py "   Asegúrate de que el tweet sea público y contenga un video.");;
         mret None)
       else if is_Exception (exc_cls e) then Some (
         print (nl ++ py "❌ Error inesperado: " ++ exc_msg e);;
         mret None)
       else None).

(** The [opciones] of [obtener_info]. *)
Definition opciones_info : gmap str optval :=
  {[ py "quiet" := OBool true; py "no_warnings" := OBool true ]}.

(** The set [resoluciones] lines 105 to 108 build: the heights that are
    neither missing nor zero. *)
Definition resoluciones (formatos : list formato_info) : gset Z :=
  foldl (fun acc f =>
           match height f with
           | Some h => if bool_decide (h = 0%Z) then acc else acc ∪ {[ h ]}
           | None => acc
           end) ∅ formatos.

(** [sorted(rs, reverse=True)] *)
Definition sorted_reverse (rs : gset Z) : list Z :=
  merge_sort Z.ge (elements rs).

(** [', '.join(str(r) + 'p' for r in sorted(rs, reverse=True))] *)
Definition calidades_texto (rs : gset Z) : str :=
  join (py ", ") (map (fun r => str_of_Z r ++ py "p") (sorted_reverse rs)).

(** [info.get(key, 'N/A')] inside an f-string. *)
Definition get_na (field : option str) : str := default (py "N/A") field.

Definition obtener_info (url : str) : M unit :=
  import_yt_dlp;;
  print (nl ++ py " Obteniendo información del video...");;
  try_except
    (info ← extract_info opciones_info url false;
     print (nl ++ py " Información del video:");;
     print (py "   Título:    " ++ get_na (title info));;
     print (py "   Usuario:   " ++ get_na (uploader info));;
     print (py "   Duración:  " ++ get_na (duration info) ++ py " segundos");;
     print (py "   Fecha:     " ++ get_na (upload_date info));;
     let rs := resoluciones (formats info) in
     if bool_decide (rs = ∅) then mret tt
     else print (py "   Calidades: " ++ calidades_texto rs))
    (fun e =>
       if is_Exception (exc_cls e) then Some (
         print (py "❌ No se pudo obtener información: " ++ exc_msg e))
       else None).

(** The dictionary of line 143, and its [.get(cal_opcion, "best")]. *)
Definition calidades : gmap str str :=
  {[ py "1" := py "best"; py "2" := py "720"; py "3" := py "480";
     py "4" := py "360"; py "5" := py "worst" ]}.

Definition calidad_de (cal_opcion : str) : str :=
  default (py "best") (calidades !! cal_opcion).

(** Option 1 of the menu, lines 136 to 147. *)
Definition menu_opcion_1 : M unit :=
  linea ← input (nl ++ py "Pega la URL del tweet: ");
  let url := strip linea in
  if negb (es_url_valida url) then
    print (py "  La URL no parece ser de Twitter/X. Intenta de nuevo.")
  else
    print (nl ++ py "Calidad: [1] Mejor  [2] 720p  [3] 480p  [4] 360p  [5] Peor");;
    linea_cal ← input (py "Elige calidad (Enter = mejor): ");
    let calidad := calidad_de (strip linea_cal) in
    linea_carpeta ← input (py "Carpeta destino (Enter = carpeta actual): ");
    let carpeta := or_else (strip linea_carpeta) (py "descargas_twitter") in
    descargar_video url carpeta calidad;;
    mret tt.

(** Option 2 of the menu, lines 150 to 154. *)
Definition menu_opcion_2 : M unit :=
  linea ← input (nl ++ py "Pega la URL del tweet: ");
  let url := strip linea in
  if negb (es_url_valida url) then
    print (py "  La URL no parece ser de Twitter/X.")
  else
    obtener_info url.

(** The collecting loop of lines 159 to 166, run over the lines [pend] that
    are still to be read: each turn writes the prompt and takes one line. *)
Fixpoint leer_urls_desde (pend : list str) (urls : list str) (tr : list event)
  : result (list str) * list str * list event :=
  let tr1 := tr ++ [EvPrompt (py "> ")] in
  match pend with
  | [] => (Raise (mkExc EOFError (py "EOF when reading a line")), [], tr1)
  | linea :: rest =>
      let url := strip linea in
      if bool_decide (str_lower rt url = py "listo") then (Ok urls, rest, tr1)
      else if es_url_valida url then leer_urls_desde rest (urls ++ [url]) tr1
      else if truthy url then
        leer_urls_desde rest urls
          (tr1 ++ [EvPrint (py "    URL inválida, omitida.") nl])
      else leer_urls_desde rest urls tr1
  end.

Definition leer_urls (urls : list str) : M (list str) :=
  fun w =>
    match leer_urls_desde (stdin w) urls (trace w) with
    | (r, pend, tr) => (r, mkWorld pend tr (fs w) (yt_dlp_importable w))
    end.

(** The loop of lines 174 to 176; [i] is the running index of [enumerate]
    and [total] is [len(urls)]. The call leaves [calidad] to its default. *)
Fixpoint descargar_lote (i total : nat) (urls : list str) (carpeta : str) : M unit :=
  match urls with
  | [] => mret tt
  | url :: rest =>
      print_end (py "[" ++ str_of_nat i ++ py "/" ++ str_of_nat total ++ py "]") (py " ");;
      descargar_video url carpeta (py "best");;
      descargar_lote (S i) total rest carpeta
  end.

(** Option 3 of the menu, lines 157 to 176. *)
Definition menu_opcion_3 : M unit :=
  print (nl ++ py "Ingresa las URLs (una por línea). Escribe 'listo' cuando termines:");;
  urls ← leer_urls [];
  match urls with
  | [] => print (py "No se ingresaron URLs válidas.")
  | _ :: _ =>
      linea ← input (py "Carpeta destino (Enter = 'descargas_twitter'): ");
      let carpeta := or_else (strip linea) (py "descargas_twitter") in
      print (nl ++ py "Descargando " ++ str_of_nat (length urls) ++ py " videos..." ++ nl);;
      descargar_lote 1 (length urls) urls carpeta
  end.

(** One turn of the [while True] of line 122: [true] to go round again,
    [false] after the [break] of option 0. *)
Definition menu_paso : M bool :=
  print (nl ++ py "¿Qué deseas hacer?");;
  print (py "  [1] Descargar un video");;
  print (py "  [2] Ver información de un video");;
  print (py "  [3] Descargar varios videos (batch)");;
  print (py "  [0] Salir");;
  linea ← input (nl ++ py "Opción: ");
  let opcion := strip linea in
  if bool_decide (opcion = py "0") then
    print (nl ++ py " ¡Hasta luego!");; mret false
  else if bool_decide (opcion = py "1") then menu_opcion_1;; mret true
  else if bool_decide (opcion = py "2") then menu_opcion_2;; mret true
  else if bool_decide (opcion = py "3") then menu_opcion_3;; mret true
  else print (py "Opción no válida.");; mret true.

(** The [while True] loop; [None] when the turns allowed are used up. *)
Fixpoint menu_bucle (fuel : nat) (w : world) : option (result unit * world) :=
  match fuel with
  | O => None
  | S fuel' =>
      match menu_paso w with
      | (Ok true, w') => menu_bucle fuel' w'
      | (Ok false, w') => Some (Ok tt, w')
      | (Raise e, w') => Some (Raise e, w')
      end
  end.

Definition menu_cabecera : M unit :=
  print (repeat_str (py "=") 55);;
  print (py "        Twitter/X Video Downloader ");;
  print (repeat_str (py "=") 55);;
  print [].

(** Every turn of the loop reads a line, so one turn more than there are
    lines is enough. *)
Definition menu_interactivo (w : world) : option (result unit * world) :=
  match menu_cabecera w with
  | (Ok _, w') => menu_bucle (S (length (stdin w'))) w'
  | (Raise e, w') => Some (Raise e, w')
  end.

(** [main()], with [sys.argv] as argument. *)
Definition main (argv : list str) (w : world) : option (result unit * world) :=
  match instalar_ytdlp w with
  | (Raise e, w') => Some (Raise e, w')
  | (Ok _, w') =>
      match argv with
      | _ :: url :: resto =>
          let carpeta := default (py "descargas_twitter") (resto !! 0%nat) in
          let calidad := default (py "best") (resto !! 1%nat) in
          if es_url_valida url then
            Some ((descargar_video url carpeta calidad;; mret tt) w')
          else
            Some (print (py "❌ URL inválida. Uso: python twitter_downloader.py <URL> [carpeta] [calidad]") w')
      | _ => menu_interactivo w'
      end
  end.

End Program.

(** ** Fixtures: a plain-ASCII interpreter and small worlds *)

Definition ascii_decimal (c : N) : bool := (48 <=? c) && (c <=? 57).

Definition ascii_lower (s : str) : str :=
  map (fun c => if (65 <=? c) && (c <=? 90) then c + 32 else c) s.

Definition info_demo : info_dict :=
  mkInfo (Some (py "Demo")) (Some (py "user")) (Some (py "12.5")) None
    [mkFormato (Some 720%Z); mkFormato None; mkFormato (Some 1080%Z);
     mkFormato (Some 720%Z); mkFormato (Some 0%Z)].

(** A library whose calls succeed. *)
Definition rt_ok : runtime :=
  mkRuntime ascii_decimal ascii_lower (fun s => py "/home/u/" ++ s)
    (fun _ => Ok tt) (fun _ => true)
    (fun _ _ _ _ => Ok info_demo)
    (fun _ _ _ => Ok (py "descargas_twitter/user_1.mp4")).

(** A library interrupted from the keyboard during the extraction. *)
Definition rt_ctrl_c : runtime :=
  mkRuntime ascii_decimal ascii_lower (fun s => py "/home/u/" ++ s)
    (fun _ => Ok tt) (fun _ => true)
    (fun _ _ _ _ => Raise (mkExc KeyboardInterrupt []))
    (fun _ _ _ => Ok (py "descargas_twitter/user_1.mp4")).

(** A library whose extraction fails with its own error. *)
Definition rt_privado : runtime :=
  mkRuntime ascii_decimal ascii_lower (fun s => py "/home/u/" ++ s)
    (fun _ => Ok tt) (fun _ => true)
    (fun _ _ _ _ => Raise (mkExc DownloadError (py "ERROR: No video could be found in this tweet")))
    (fun _ _ _ => Ok (py "descargas_twitter/user_1.mp4")).

(** A package manager that fails: no network. *)
Definition rt_sin_red : runtime :=
  mkRuntime ascii_decimal ascii_lower (fun s => py "/home/u/" ++ s)
    (fun _ => Raise (mkExc CalledProcessError (py "returned non-zero exit status 1")))
    (fun _ => false)
    (fun _ _ _ _ => Ok info_demo)
    (fun _ _ _ => Ok (py "descargas_twitter/user_1.mp4")).

(** A package manager that returns, in an environment other than the one
    the program runs in: the module stays out of reach. *)
Definition rt_pip_en_vano : runtime :=
  mkRuntime ascii_decimal ascii_lower (fun s => py "/home/u/" ++ s)
    (fun _ => Ok tt) (fun _ => false)
    (fun _ _ _ _ => Ok info_demo)
    (fun _ _ _ => Ok (py "descargas_twitter/user_1.mp4")).

Definition url_demo : str := py "https://x.com/user/status/1".

(** An empty working directory where [yt_dlp] is not installed. *)
Definition mundo_sin_modulo (entrada : list str) : world :=
  mkWorld entrada [] ∅ false.

(** An empty working directory with [yt_dlp] installed. *)
Definition mundo (entrada : list str) : world := mkWorld entrada [] ∅ true.


(** ** Reading the trace *)

(** The two library calls of the [try] block of [descargar_video] taken
    together: the outcome of the extraction-and-download, which is the
    resolved file name or the first exception raised, and the events the
    calls leave, given the trace [tr] at the time of the first call. *)
Definition ydl_descarga (rt : runtime) (tr : list event) (o : gmap str optval)
    (url : str) : result str * list event :=
  match ydl_extract_info rt tr o url true with
  | Raise e => (Raise e, [EvExtract o url true])
  | Ok info =>
      (ydl_prepare_filename rt (tr ++ [EvExtract o url true]) o info,
       [EvExtract o url true; EvPrepare o info])
  end.

(** The four lines [descargar_video] prints before it calls the library. *)
Definition cabecera_descarga (rt : runtime) (url carpeta calidad : str) : list event :=
  [ EvPrint (nl ++ py " Descargando video...") nl;
    EvPrint (py "   URL: " ++ url) nl;
    EvPrint (py "   Destino: " ++ os_path_abspath rt carpeta) nl;
    EvPrint (py "   Calidad: " ++ calidad ++ nl) nl ].

(** What the [except] clauses of [descargar_video] print for [e]; [None]
    when no clause takes [e]. *)
Definition diagnostico_descarga (e : exc) : option (list event) :=
  if is_DownloadError (exc_cls e) then
    Some [ EvPrint (nl ++ py "❌ Error al descargar: " ++ exc_msg e) nl;
           EvPrint (py "   Asegúrate de que el tweet sea público y contenga un video.") nl ]
  else if is_Exception (exc_cls e) then
    Some [ EvPrint (nl ++ py "❌ Error inesperado: " ++ exc_msg e) nl ]
  else None.

(** The lines printed after a download that went through. *)
Definition confirmacion_descarga (nombre : str) : list event :=
  [ EvPrint (nl ++ py "✅ Video descargado exitosamente!") nl;
    EvPrint (py "   Archivo: " ++ nombre) nl ].

(** The calls to the library recorded in a trace. *)
Definition es_llamada (ev : event) : bool :=
  match ev with
  | EvExtract _ _ _ | EvPrepare _ _ => true
  | _ => false
  end.

(** The download attempts and the progress markers of a trace: the
    extractions, and the only lines printed with [end=" "]. *)
Definition es_hito (ev : event) : bool :=
  match ev with
  | EvExtract _ _ _ => true
  | EvPrint _ end_ => bool_decide (end_ = py " ")
  | _ => false
  end.

Definition aviso_omitida : event := EvPrint (py "    URL inválida, omitida.") nl.

Definition marcador (i total : nat) : event :=
  EvPrint (py "[" ++ str_of_nat i ++ py "/" ++ str_of_nat total ++ py "]") (py " ").

(** The library raises nothing but subclasses of [Exception]. *)
Definition solo_Exception (rt : runtime) : Prop :=
  (∀ tr o url d e, ydl_extract_info rt tr o url d = Raise e → is_Exception (exc_cls e) = true)
  ∧ (∀ tr o i e, ydl_prepare_filename rt tr o i = Raise e → is_Exception (exc_cls e) = true).

(** [s.startswith(pre)] *)
Fixpoint empieza_por (pre s : str) : bool :=
  match pre, s with
  | [], _ => true
  | _ :: _, [] => false
  | a :: pre', b :: s' => (a =? b) && empieza_por pre' s'
  end.

(** The prompt with which option 1 asks for a quality. *)
Definition pregunta_calidad : str := py "Elige calidad (Enter = mejor): ".

(** An event that shows the quality a download runs with shows [q], and
    none asks for one: an extraction is a download with the options made for
    [q], a line that starts as the quality line of the header is that line
    for [q], and a prompt is not the one for a quality. *)
Definition uso_calidad (q : str) (ev : event) : Prop :=
  match ev with
  | EvExtract o _ d =>
      d = true ∧ o !! py "format" = Some (OStr (formato_de q))
      ∧ ∃ carpeta, o = opciones_descarga carpeta q
  | EvPrint t _ =>
      empieza_por (py "   Calidad: ") t = true → t = py "   Calidad: " ++ q ++ nl
  | EvPrompt t => t ≠ pregunta_calidad
  | _ => True
  end.

(** The events of a trace that have to do with a quality: the extractions,
    the lines that start as the quality line of the header, and the prompt
    for a quality. *)
Definition es_calidad (ev : event) : bool :=
  match ev with
  | EvExtract _ _ _ => true
  | EvPrint t _ => empieza_por (py "   Calidad: ") t
  | EvPrompt t => bool_decide (t = pregunta_calidad)
  | _ => false
  end.

(** What a batch over [urls] into [carpeta] has to show of the quality: for
    each URL in turn the quality line of the header reading [best] and the
    download with the options made for [best]. *)
Definition calidad_lote (carpeta : str) (urls : list str) : list event :=
  flat_map (fun u => [ EvPrint (py "   Calidad: best" ++ nl) nl;
                       EvExtract (opciones_descarga carpeta (py "best")) u true ])
           urls.

(** What one turn of the collecting loop writes for the line [linea]. *)
Definition eventos_linea (rt : runtime) (linea : str) : list event :=
  EvPrompt (py "> ") ::
  (if es_url_valida rt (strip linea) then []
   else if truthy (strip linea) then [aviso_omitida]
   else []).

(** The markers and the download attempts of a batch over [urls], numbered
    from [i]. *)
Fixpoint hitos_lote (carpeta : str) (i total : nat) (urls : list str) : list event :=
  match urls with
  | [] => []
  | u :: resto =>
      marcador i total
      :: EvExtract (opciones_descarga carpeta (py "best")) u true
      :: hitos_lote carpeta (S i) total resto
  end.

Definition uso : str :=
  py "❌ URL inválida. Uso: python twitter_downloader.py <URL> [carpeta] [calidad]".

(** The line of resolutions [obtener_info] prints, none when the set is
    empty. *)
Definition linea_calidades (formatos : list formato_info) : list event :=
  if bool_decide (resoluciones formatos = ∅) then []
  else [ EvPrint (py "   Calidades: " ++ calidades_texto (resoluciones formatos)) nl ].

(** The card [obtener_info] prints for [info]. *)
Definition ficha_info (info : info_dict) : list event :=
  [ EvPrint (nl ++ py " Información del video:") nl;
    EvPrint (py "   Título:    " ++ get_na (title info)) nl;
    EvPrint (py "   Usuario:   " ++ get_na (uploader info)) nl;
    EvPrint (py "   Duración:  " ++ get_na (duration info) ++ py " segundos") nl;
    EvPrint (py "   Fecha:     " ++ get_na (upload_date info)) nl ]
  ++ linea_calidades (formats info).




(** The menu printed at each turn and the prompt that follows it. *)
Definition menu_rotulo : list event :=
  [ EvPrint (nl ++ py "¿Qué deseas hacer?") nl;
    EvPrint (py "  [1] Descargar un video") nl;
    EvPrint (py "  [2] Ver información de un video") nl;
    EvPrint (py "  [3] Descargar varios videos (batch)") nl;
    EvPrint (py "  [0] Salir") nl;
    EvPrompt (nl ++ py "Opción: ") ].

(** The branches of one turn of the menu, once the option is read. *)
Definition menu_despacho (rt : runtime) (opcion : str) : M bool :=
  if bool_decide (opcion = py "0") then
    print (nl ++ py " ¡Hasta luego!");; mret false
  else if bool_decide (opcion = py "1") then menu_opcion_1 rt;; mret true
  else if bool_decide (opcion = py "2") then menu_opcion_2 rt;; mret true
  else if bool_decide (opcion = py "3") then menu_opcion_3 rt;; mret true
  else print (py "Opción no válida.");; mret true.

(** A computation that never puts lines back on the input. *)
Definition no_crece {A} (m : M A) : Prop :=
  ∀ w, (length (stdin (m w).2) ≤ length (stdin w))%nat.

(** The banner [menu_interactivo] prints before its loop. *)
Definition cabecera_menu : list event :=
  [ EvPrint (repeat_str (py "=") 55) nl;
    EvPrint (py "        Twitter/X Video Downloader ") nl;
    EvPrint (repeat_str (py "=") 55) nl;
    EvPrint [] nl ].

(** What a turn of the menu leaves when the option is none of 0 to 3. *)
Definition turno_no_valido : list event :=
  menu_rotulo ++ [EvPrint (py "Opción no válida.") nl].

(** * Properties *)

(** ** Correctness of the matcher *)

Lemma lang_seq_inv (r1 r2 : regex) (s : str) :
  lang (Seq r1 r2) s ↔ ∃ s1 s2, s = s1 ++ s2 ∧ lang r1 s1 ∧ lang r2 s2.
Proof.
  split.
  - inversion 1; subst; eauto.
  - intros (s1 & s2 & -> & H1 & H2). by constructor.
Qed.

Lemma lang_alt_inv (r1 r2 : regex) (s : str) :
  lang (Alt r1 r2) s ↔ lang r1 s ∨ lang r2 s.
Proof.
  split.
  - inversion 1; subst; auto.
  - intros [H|H]; [by apply lang_alt_l | by apply lang_alt_r].
Qed.

Lemma lang_sym_inv (p : N → bool) (s : str) :
  lang (Sym p) s ↔ ∃ c, s = [c] ∧ p c = true.
Proof.
  split.
  - inversion 1; subst; eauto.
  - intros (c & -> & H). by constructor.
Qed.

Lemma lang_eps_inv (s : str) : lang Eps s ↔ s = [].
Proof.
  split.
  - by inversion 1.
  - intros ->. constructor.
Qed.

Lemma lang_void_inv (s : str) : lang Void s ↔ False.
Proof. split; [inversion 1 | done]. Qed.

Lemma nullable_lang (r : regex) : nullable r = true ↔ lang r [].
Proof.
  induction r as [| |p|r1 IH1 r2 IH2|r1 IH1 r2 IH2|r IH]; simpl.
  - rewrite lang_void_inv. split; [discriminate | done].
  - rewrite lang_eps_inv. done.
  - rewrite lang_sym_inv. split; [discriminate | by intros (c & ? & ?)].
  - rewrite andb_true_iff, IH1, IH2, lang_seq_inv. split.
    + intros [H1 H2]. by exists [], [].
    + intros (s1 & s2 & E & H1 & H2). symmetry in E.
      apply app_eq_nil in E as [-> ->]. done.
  - rewrite orb_true_iff, IH1, IH2, lang_alt_inv. done.
  - split; [constructor | reflexivity].
Qed.

Lemma lang_star_cons (r : regex) (c : N) (s : str) :
  lang (Star r) (c :: s) →
  ∃ s1 s2, s = s1 ++ s2 ∧ lang r (c :: s1) ∧ lang (Star r) s2.
Proof.
  intros H. remember (Star r) as r' eqn:Er. remember (c :: s) as w eqn:Ew.
  revert s Ew.
  induction H as [| | | | | |r0 s1 s2 H1 _ H2 IH2]; intros u Ew; try discriminate.
  injection Er as ->. destruct s1 as [|c1 s1]; simpl in Ew.
  - by apply IH2.
  - injection Ew as -> <-. eauto.
Qed.

Lemma lang_deriv (c : N) (r : regex) (s : str) :
  lang (deriv c r) s ↔ lang r (c :: s).
Proof.
  revert s.
  induction r as [| |p|r1 IH1 r2 IH2|r1 IH1 r2 IH2|r IH]; intros s; simpl.
  - by rewrite !lang_void_inv.
  - rewrite lang_void_inv, lang_eps_inv. done.
  - rewrite lang_sym_inv. destruct (p c) eqn:Ep.
    + rewrite lang_eps_inv. split.
      * intros ->. eauto.
      * by intros (c' & [= <- ->] & _).
    + rewrite lang_void_inv. split; [done |].
      intros (c' & [= <- ->] & ?). congruence.
  - assert (Hcons : lang (Seq (deriv c r1) r2) s ↔
                    ∃ s1 s2, s = s1 ++ s2 ∧ lang r1 (c :: s1) ∧ lang r2 s2).
    { rewrite lang_seq_inv. by setoid_rewrite IH1. }
    rewrite (lang_seq_inv r1 r2). destruct (nullable r1) eqn:En.
    + rewrite lang_alt_inv, Hcons, IH2. split.
      * intros [(s1 & s2 & -> & H1 & H2) | H].
        -- by exists (c :: s1), s2.
        -- apply nullable_lang in En. by exists [], (c :: s).
      * intros (s1 & s2 & E & H1 & H2). destruct s1 as [|c1 s1]; simpl in E.
        -- subst s2. by right.
        -- injection E as <- ->. left. eauto.
    + rewrite Hcons. split.
      * intros (s1 & s2 & -> & H1 & H2). by exists (c :: s1), s2.
      * intros (s1 & s2 & E & H1 & H2). destruct s1 as [|c1 s1]; simpl in E.
        -- apply nullable_lang in H1. congruence.
        -- injection E as <- ->. eauto.
  - by rewrite !lang_alt_inv, IH1, IH2.
  - rewrite lang_seq_inv. setoid_rewrite IH. split.
    + intros (s1 & s2 & -> & H1 & H2).
      change (c :: s1 ++ s2) with ((c :: s1) ++ s2). by constructor.
    + apply lang_star_cons.
Qed.

(** [re_match] answers whether a prefix of the string is a word of the
    pattern. *)
Lemma re_match_prefix (r : regex) (s : str) :
  re_match r s = true ↔ ∃ p t, s = p ++ t ∧ lang r p.
Proof.
  revert r. induction s as [|c s IH]; intros r; simpl.
  - rewrite orb_false_r, nullable_lang. split.
    + intros H. by exists [], [].
    + intros (p & t & E & H). symmetry in E. apply app_eq_nil in E as [-> ->]. done.
  - rewrite orb_true_iff, nullable_lang, IH. split.
    + intros [H | (p & t & -> & H)].
      * by exists [], (c :: s).
      * exists (c :: p), t. split; [done | by apply lang_deriv].
    + intros (p & t & E & H). destruct p as [|c' p]; simpl in E.
      * by left.
      * injection E as -> ->. right. exists p, t. split; [done | by apply lang_deriv].
Qed.

(** C1. The URL validator is true of a string exactly when a prefix of the
    string, taken from its first character, is a word of the pattern
    [https?://(www\.)?(twitter\.com|x\.com)/.+/status/\d+] (nothing is asked
    of what follows the match), and it answers with a boolean on every
    string. *)
Theorem es_url_valida_spec (rt : runtime) (s : str) :
  (es_url_valida rt s = true ↔ ∃ p t, s = p ++ t ∧ lang (patron rt) p)
  ∧ (es_url_valida rt s = true ∨ es_url_valida rt s = false).
Proof.
  split.
  - apply re_match_prefix.
  - destruct (es_url_valida rt s); auto.
Qed.

(** The examples of the specification. *)
Example es_url_valida_twitter :
  es_url_valida rt_ok (py "https://twitter.com/user/status/12345") = true.
Proof. reflexivity. Qed.

Example es_url_valida_x :
  es_url_valida rt_ok (py "https://x.com/user/status/999") = true.
Proof. reflexivity. Qed.

Example es_url_valida_otro_dominio :
  es_url_valida rt_ok (py "https://example.com/status/1") = false.
Proof. reflexivity. Qed.

Example es_url_valida_id_no_numerico :
  es_url_valida rt_ok (py "https://x.com/status/abc") = false.
Proof. reflexivity. Qed.
(** ** Running the monad *)

(** Unfolding the monad on a world given by its four fields: the events are
    appended one after the other as the program emits them. *)
Ltac desplegar :=
  cbv beta iota zeta delta
    [mbind M_bind mret M_ret bind ret try_except print print_end input
     import_yt_dlp extract_info prepare_filename emit
     stdin trace fs yt_dlp_importable fst snd].

Ltac ordenar := rewrite <- ?app_assoc; cbn [app].

Lemma descargar_video_eq (rt : runtime) (url carpeta calidad : str) (w : world) :
  descargar_video rt url carpeta calidad w =
    if yt_dlp_importable w then
      match Path_mkdir_parents (Path carpeta).1 (Path carpeta).2 true (fs w) with
      | Raise e => (Raise e, w)
      | Ok fs1 =>
          let tr1 := trace w ++ cabecera_descarga rt url carpeta calidad in
          match ydl_descarga rt tr1 (opciones_descarga carpeta calidad) url with
          | (Ok nombre, evs) =>
              (Ok (Some nombre),
               mkWorld (stdin w) (tr1 ++ evs ++ confirmacion_descarga nombre) fs1 true)
          | (Raise e, evs) =>
              match diagnostico_descarga e with
              | Some diag => (Ok None, mkWorld (stdin w) (tr1 ++ evs ++ diag) fs1 true)
              | None => (Raise e, mkWorld (stdin w) (tr1 ++ evs) fs1 true)
              end
          end
      end
    else (Raise (mkExc ImportError (py "No module named 'yt_dlp'")), w).
Proof.
  destruct w as [pend tr f imp].
  unfold descargar_video, Path_mkdir, ydl_descarga, diagnostico_descarga,
    cabecera_descarga, confirmacion_descarga. desplegar.
  destruct imp; [|reflexivity].
  destruct (Path_mkdir_parents _ _ _ _) as [fs1|e]; [|reflexivity].
  ordenar.
  destruct (ydl_extract_info _ _ _ _ _) as [info|e]; ordenar.
  - destruct (ydl_prepare_filename _ _ _ _) as [nombre|e]; ordenar; [reflexivity|].
    destruct (is_DownloadError _); ordenar; [reflexivity|].
    destruct (is_Exception _); ordenar; reflexivity.
  - destruct (is_DownloadError _); ordenar; [reflexivity|].
    destruct (is_Exception _); ordenar; reflexivity.
Qed.

(** C2 (amended). Once [yt_dlp] is imported and the destination directory is
    in place, the download operation returns the resolved file path, after a
    confirmation naming it, when the extraction-and-download succeeds; when
    the library raises its [DownloadError] it prints the error with the hint
    about the likely cause and returns [None]; when it raises another
    exception that derives from [Exception] it prints the generic diagnostic
    and returns [None]; an exception outside [Exception] is not caught and
    leaves the operation. *)
Theorem descargar_video_resultados (rt : runtime) (url carpeta calidad : str)
    (w : world) (fs1 : gmap path node) :
  yt_dlp_importable w = true →
  Path_mkdir_parents (Path carpeta).1 (Path carpeta).2 true (fs w) = Ok fs1 →
  let tr1 := trace w ++ cabecera_descarga rt url carpeta calidad in
  let r := (descargar_video rt url carpeta calidad w).1 in
  let tr' := trace (descargar_video rt url carpeta calidad w).2 in
  match ydl_descarga rt tr1 (opciones_descarga carpeta calidad) url with
  | (Ok nombre, evs) =>
      r = Ok (Some nombre) ∧ tr' = tr1 ++ evs ++ confirmacion_descarga nombre
  | (Raise e, evs) =>
      if is_DownloadError (exc_cls e) then
        r = Ok None ∧
        tr' = tr1 ++ evs ++
          [ EvPrint (nl ++ py "❌ Error al descargar: " ++ exc_msg e) nl;
            EvPrint (py "   Asegúrate de que el tweet sea público y contenga un video.") nl ]
      else if is_Exception (exc_cls e) then
        r = Ok None ∧
        tr' = tr1 ++ evs ++ [ EvPrint (nl ++ py "❌ Error inesperado: " ++ exc_msg e) nl ]
      else
        r = Raise e ∧ tr' = tr1 ++ evs
  end.
Proof.
  intros Himp Hmk. cbv zeta.
  rewrite descargar_video_eq, Himp, Hmk. cbv zeta.
  destruct (ydl_descarga _ _ _ _) as [[nombre|e] evs]; [by split|].
  unfold diagnostico_descarga.
  destruct (is_DownloadError _); [by split|].
  destruct (is_Exception _); by split.
Qed.

Lemma descargar_video_resultados_witness :
  (descargar_video rt_privado url_demo (py "descargas_twitter") (py "720") (mundo [])).1
  = Ok None.
Proof.
  pose proof (descargar_video_resultados rt_privado url_demo
                (py "descargas_twitter") (py "720") (mundo [])
                {[ (false, [py "descargas_twitter"]) := Dir ]}
                eq_refl eq_refl) as H.
  exact (proj1 H).
Defined.

(** The library interrupted from the keyboard: the exception raised by the
    extraction is not [DownloadError], and the operation does not return. *)
Lemma descargar_video_ctrl_c :
  let w := mundo [] in
  let carpeta := py "descargas_twitter" in
  let calidad := py "best" in
  ydl_extract_info rt_ctrl_c (trace w ++ cabecera_descarga rt_ctrl_c url_demo carpeta calidad)
    (opciones_descarga carpeta calidad) url_demo true
  = Raise (mkExc KeyboardInterrupt [])
  ∧ (descargar_video rt_ctrl_c url_demo carpeta calidad w).1
    = Raise (mkExc KeyboardInterrupt [])
  ∧ (descargar_video rt_ctrl_c url_demo carpeta calidad w).1 ≠ Ok None.
Proof. by vm_compute. Qed.

(** ** Creating the destination directory *)

Lemma fs_lookup_insert_dir (fs : gmap path node) (p q : path) :
  fs_lookup (<[p := Dir]> fs) q
  = if decide (p = q) then Some Dir else fs_lookup fs q.
Proof.
  unfold fs_lookup. destruct (q.2) eqn:Eq.
  - by case_decide.
  - rewrite lookup_insert. by case_decide.
Qed.

Lemma os_mkdir_exists (p : path) (fs : gmap path node) (n : node) :
  fs_lookup fs p = Some n →
  os_mkdir p fs = Raise (mkExc FileExistsError (py "[Errno 17] File exists")).
Proof. intros H. unfold os_mkdir. by rewrite H. Qed.

(** A directory that is there already is left alone. *)
Lemma Path_mkdir_parents_existing (a : bool) (rp : list str) (fs : gmap path node) :
  Path_is_dir fs (a, rp) = true → Path_mkdir_parents a rp true fs = Ok fs.
Proof.
  intros H. assert (E : fs_lookup fs (a, rp) = Some Dir).
  { unfold Path_is_dir in H. by destruct (fs_lookup fs (a, rp)) as [[|]|]. }
  destruct rp; cbn [Path_mkdir_parents];
    rewrite (os_mkdir_exists _ _ _ E); cbn [exc_cls is_FileNotFoundError];
    by rewrite H.
Qed.

(** The events of the two library calls start with the extraction. *)
Lemma ydl_descarga_eventos (rt : runtime) (tr : list event) (o : gmap str optval)
    (url : str) :
  ∃ resto, (ydl_descarga rt tr o url).2 = EvExtract o url true :: resto
         ∧ (resto = [] ∨ ∃ info, resto = [EvPrepare o info]).
Proof.
  unfold ydl_descarga. destruct (ydl_extract_info rt tr o url true) as [info|e].
  - exists [EvPrepare o info]. eauto.
  - exists []. eauto.
Qed.

(** With the module imported and the directory created, the operation goes
    as far as the extraction, and leaves the input alone. *)
Lemma descargar_video_llega (rt : runtime) (url carpeta calidad : str) (w : world)
    (fs1 : gmap path node) :
  yt_dlp_importable w = true →
  Path_mkdir_parents (Path carpeta).1 (Path carpeta).2 true (fs w) = Ok fs1 →
  ∃ r cola,
    descargar_video rt url carpeta calidad w
    = (r, mkWorld (stdin w)
            (trace w ++ cabecera_descarga rt url carpeta calidad
               ++ EvExtract (opciones_descarga carpeta calidad) url true :: cola)
            fs1 true).
Proof.
  intros Himp Hmk. rewrite descargar_video_eq, Himp, Hmk. cbv zeta.
  destruct (ydl_descarga_eventos rt
              (trace w ++ cabecera_descarga rt url carpeta calidad)
              (opciones_descarga carpeta calidad) url) as (resto & Hev & _).
  destruct (ydl_descarga _ _ _ _) as [[nombre|e] evs]; simpl in Hev; subst evs.
  - eexists _, _. rewrite <- app_assoc. reflexivity.
  - destruct (diagnostico_descarga e); eexists _, _; rewrite <- app_assoc;
      cbn [app]; reflexivity.
Qed.

(** ** The two quality tables *)

(** C6. Both quality mappings are total with default ["best"]: the selector
    of the menu sends "1" to "best", "2" to "720", "3" to "480", "4" to "360",
    "5" to "worst" and everything else, the empty answer included, to "best";
    the format table sends "best" to "best", "worst" to "worst", "720", "480"
    and "360" to the height-capped expressions and everything else to
    "best". *)
Theorem calidades_totales :
  calidad_de (py "1") = py "best"
  ∧ calidad_de (py "2") = py "720"
  ∧ calidad_de (py "3") = py "480"
  ∧ calidad_de (py "4") = py "360"
  ∧ calidad_de (py "5") = py "worst"
  ∧ calidad_de [] = py "best"
  ∧ (∀ k, k ∉ [py "1"; py "2"; py "3"; py "4"; py "5"] → calidad_de k = py "best")
  ∧ formato_de (py "best") = py "best"
  ∧ formato_de (py "worst") = py "worst"
  ∧ formato_de (py "720") = py "best[height<=720]"
  ∧ formato_de (py "480") = py "best[height<=480]"
  ∧ formato_de (py "360") = py "best[height<=360]"
  ∧ (∀ k, k ∉ [py "best"; py "worst"; py "720"; py "480"; py "360"] →
          formato_de k = py "best").
Proof.
  repeat split; try (by vm_compute).
  - intros k Hk. unfold calidad_de, calidades.
    rewrite !not_elem_of_cons in Hk. destruct Hk as (H1 & H2 & H3 & H4 & H5 & _).
    rewrite !lookup_insert_ne by done. by rewrite lookup_singleton_ne.
  - intros k Hk. unfold formato_de, formatos.
    rewrite !not_elem_of_cons in Hk. destruct Hk as (H1 & H2 & H3 & H4 & H5 & _).
    rewrite !lookup_insert_ne by done. by rewrite lookup_singleton_ne.
Qed.

(** ** Stripping *)

Lemma lstrip_nil (s : str) : lstrip s = [] ↔ forallb is_space s = true.
Proof.
  induction s as [|c s IH]; simpl; [done|].
  destruct (is_space c); simpl; [done|]. split; discriminate.
Qed.

Lemma lstrip_space (s : str) :
  forallb is_space (lstrip s) = true → lstrip s = [].
Proof.
  induction s as [|c s IH]; simpl; [done|].
  destruct (is_space c) eqn:E; [done|]. simpl. by rewrite E.
Qed.

(** [strip] leaves nothing exactly of the strings made of white space. *)
Lemma strip_nil (s : str) : strip s = [] ↔ forallb is_space s = true.
Proof.
  unfold strip, rstrip. split.
  - intros H. apply (f_equal (@rev N)) in H. rewrite rev_involutive in H.
    simpl in H. apply lstrip_nil in H. rewrite forallb_forall in H.
    apply lstrip_nil, lstrip_space. rewrite forallb_forall.
    intros c Hc. apply H. by apply in_rev in Hc.
  - intros H. apply lstrip_nil in H. by rewrite H.
Qed.

(** ** Option 1 *)

(** C10. In the single download of the menu, with a valid URL, the answer to
    the destination prompt decides the directory of the download: an empty
    or all-blank answer gives ["descargas_twitter"], which is not the working
    directory, and any other answer is taken stripped of the white space
    around it. *)
Theorem menu_opcion_1_carpeta (rt : runtime) (w : world)
    (l_url l_cal l_carpeta : str) (resto : list str) :
  stdin w = l_url :: l_cal :: l_carpeta :: resto →
  es_url_valida rt (strip l_url) = true →
  ∃ carpeta,
    menu_opcion_1 rt w
    = (descargar_video rt (strip l_url) carpeta (calidad_de (strip l_cal));; mret tt)
        (mkWorld resto
           (trace w ++
              [ EvPrompt (nl ++ py "Pega la URL del tweet: ");
                EvPrint (nl ++ py "Calidad: [1] Mejor  [2] 720p  [3] 480p  [4] 360p  [5] Peor") nl;
                EvPrompt (py "Elige calidad (Enter = mejor): ");
                EvPrompt (py "Carpeta destino (Enter = carpeta actual): ") ])
           (fs w) (yt_dlp_importable w))
    ∧ (forallb is_space l_carpeta = true →
         carpeta = py "descargas_twitter" ∧ Path carpeta ≠ Path (py "."))
    ∧ (forallb is_space l_carpeta = false → carpeta = strip l_carpeta).
Proof.
  intros Hin Hval.
  exists (or_else (strip l_carpeta) (py "descargas_twitter")). split; [|split].
  - destruct w as [pend tr f imp]. cbn [stdin trace fs yt_dlp_importable] in *.
    subst pend. unfold menu_opcion_1. desplegar. rewrite Hval.
    cbv beta iota delta [negb]. ordenar. reflexivity.
  - intros Hb. apply strip_nil in Hb. rewrite Hb. by vm_compute.
  - intros Hb. unfold or_else. destruct (strip l_carpeta) eqn:E; [|done].
    apply strip_nil in E. congruence.
Qed.

Lemma menu_opcion_1_carpeta_witness :
  ∃ carpeta,
    (menu_opcion_1 rt_ok (mundo [url_demo; py "2"; py "  "])).1
    = ((descargar_video rt_ok url_demo carpeta (py "720");; mret tt)
         (mkWorld []
            [ EvPrompt (nl ++ py "Pega la URL del tweet: ");
              EvPrint (nl ++ py "Calidad: [1] Mejor  [2] 720p  [3] 480p  [4] 360p  [5] Peor") nl;
              EvPrompt (py "Elige calidad (Enter = mejor): ");
              EvPrompt (py "Carpeta destino (Enter = carpeta actual): ") ]
            ∅ true)).1
    ∧ carpeta = py "descargas_twitter".
Proof.
  destruct (menu_opcion_1_carpeta rt_ok (mundo [url_demo; py "2"; py "  "])
              url_demo (py "2") (py "  ") [] eq_refl eq_refl)
    as (carpeta & Heq & Hblank & _).
  exists carpeta. split.
  - by rewrite Heq.
  - by apply Hblank.
Defined.

(** ** The entry point *)

(** The start-up check: nothing to do when the module is there; otherwise
    the package manager runs, and its failure is not caught. After its
    success the import is not tried again. *)
Lemma instalar_ytdlp_eq (rt : runtime) (w : world) :
  instalar_ytdlp rt w =
    if yt_dlp_importable w then (Ok true, w)
    else
      let tr1 := trace w ++ [EvPrint (py "Instalando yt-dlp...") nl] in
      match pip_install rt tr1 with
      | Ok _ =>
          (Ok true,
           mkWorld (stdin w)
             (tr1 ++ [EvPip; EvPrint (py "yt-dlp instalado correctamente." ++ nl) nl])
             (fs w) (pip_deja_importable rt tr1))
      | Raise e => (Raise e, mkWorld (stdin w) (tr1 ++ [EvPip]) (fs w) false)
      end.
Proof.
  destruct w as [pend tr f imp]. unfold instalar_ytdlp, check_call_pip. desplegar.
  destruct imp; [reflexivity|].
  cbv beta iota delta [exc_cls is_ImportError]. ordenar.
  destruct (pip_install rt _) as [u|e]; ordenar; reflexivity.
Qed.

(** The start-up check calls neither the library nor the console input. *)
Lemma instalar_ytdlp_sin_llamadas (rt : runtime) (w : world) :
  filter (λ ev, es_llamada ev = true) (trace (instalar_ytdlp rt w).2)
  = filter (λ ev, es_llamada ev = true) (trace w)
  ∧ stdin (instalar_ytdlp rt w).2 = stdin w
  ∧ fs (instalar_ytdlp rt w).2 = fs w.
Proof.
  rewrite instalar_ytdlp_eq. destruct (yt_dlp_importable w) eqn:Himp; [done|].
  cbv zeta. destruct (pip_install rt _) as [u|e]; cbn [fst snd stdin trace fs];
    rewrite !filter_app; by rewrite ?app_nil_r.
Qed.

(** C5. Called with a valid URL as its only argument, the program, after its
    start-up check, runs the download operation once with destination
    ["descargas_twitter"] and quality ["best"], and with the directory in
    place that is one extraction with those options and no other; called
    with an invalid URL it calls the library not at all, reads nothing, and
    ends after printing the usage line (unless the start-up check itself
    failed). *)
Theorem main_un_argumento (rt : runtime) (prog url : str) (w : world) :
  (es_url_valida rt url = true →
     main rt [prog; url] w
     = Some ((instalar_ytdlp rt;;
              descargar_video rt url (py "descargas_twitter") (py "best");;
              mret tt) w)
     ∧ ∀ fs1,
         yt_dlp_importable w = true →
         Path_mkdir_parents (Path (py "descargas_twitter")).1
           (Path (py "descargas_twitter")).2 true (fs w) = Ok fs1 →
         ∃ r w' cola,
           main rt [prog; url] w = Some (r, w')
           ∧ stdin w' = stdin w
           ∧ trace w'
             = trace w
               ++ cabecera_descarga rt url (py "descargas_twitter") (py "best")
               ++ EvExtract (opciones_descarga (py "descargas_twitter") (py "best")) url true
               :: cola
           ∧ filter (λ ev, es_hito ev = true) cola = [])
  ∧ (es_url_valida rt url = false →
     ∃ r w',
       main rt [prog; url] w = Some (r, w')
       ∧ filter (λ ev, es_llamada ev = true) (trace w')
         = filter (λ ev, es_llamada ev = true) (trace w)
       ∧ stdin w' = stdin w
       ∧ ((r = Ok tt ∧ ∃ antes, trace w' = antes ++ [EvPrint uso nl])
          ∨ (∃ e, r = Raise e ∧ instalar_ytdlp rt w = (Raise e, w')))).
Proof.
  split.
  - intros Hval. split.
    + unfold main, mbind, M_bind, bind, mret, M_ret, ret.
      destruct (instalar_ytdlp rt w) as [[b|e] w1]; [|reflexivity].
      cbn [lookup list_lookup default]. rewrite Hval.
      by destruct (descargar_video rt url _ _ w1) as [[r|e] w2].
    + intros fs1 Himp Hmk. unfold main. rewrite instalar_ytdlp_eq, Himp.
      cbn [lookup list_lookup default]. rewrite Hval.
      unfold mbind, M_bind, bind.
      rewrite descargar_video_eq, Himp, Hmk. cbv zeta.
      destruct (ydl_descarga_eventos rt
                  (trace w ++ cabecera_descarga rt url (py "descargas_twitter") (py "best"))
                  (opciones_descarga (py "descargas_twitter") (py "best")) url)
        as (resto & Hev & Hresto).
      assert (Hr : filter (λ ev, es_hito ev = true) resto = [])
        by (destruct Hresto as [->|[info ->]]; reflexivity).
      destruct (ydl_descarga _ _ _ _) as [[nombre|e] evs]; cbn [snd] in Hev; subst evs.
      * eexists _, _, (resto ++ confirmacion_descarga nombre).
        split; [reflexivity|]. split; [reflexivity|].
        cbn [trace]. rewrite <- app_assoc. split; [reflexivity|].
        rewrite filter_app, Hr. reflexivity.
      * destruct (diagnostico_descarga e) as [diag|] eqn:Hd.
        -- eexists _, _, (resto ++ diag).
           split; [reflexivity|]. split; [reflexivity|].
           cbn [trace]. rewrite <- app_assoc. split; [reflexivity|].
           rewrite filter_app, Hr. unfold diagnostico_descarga in Hd.
           destruct (is_DownloadError _); [by injection Hd as <-|].
           destruct (is_Exception _); [by injection Hd as <-|discriminate].
        -- eexists _, _, resto.
           split; [reflexivity|]. split; [reflexivity|].
           cbn [trace]. rewrite <- app_assoc. split; [reflexivity | exact Hr].
  - intros Hval. unfold main.
    pose proof (instalar_ytdlp_sin_llamadas rt w) as (Hll & Hin & _).
    destruct (instalar_ytdlp rt w) as [[b|e] w1] eqn:Hboot; cbn [fst snd] in *.
    + cbn [lookup list_lookup default]. rewrite Hval. unfold uso, print, print_end.
      eexists _, _. split; [reflexivity|].
      unfold emit. cbn [trace stdin].
      rewrite filter_app, Hll, Hin. split; [by rewrite app_nil_r|].
      split; [reflexivity|].
      left. split; [reflexivity|]. exists (trace w1). reflexivity.
    + exists (Raise e), w1. split; [reflexivity|]. split; [exact Hll|].
      split; [exact Hin|]. right. exists e. split; reflexivity.
Qed.

(** ** The info operation *)

Lemma obtener_info_eq (rt : runtime) (url : str) (w : world) :
  obtener_info rt url w =
    if yt_dlp_importable w then
      let tr1 := trace w ++ [EvPrint (nl ++ py " Obteniendo información del video...") nl] in
      let tr2 := tr1 ++ [EvExtract opciones_info url false] in
      match ydl_extract_info rt tr1 opciones_info url false with
      | Ok info => (Ok tt, mkWorld (stdin w) (tr2 ++ ficha_info info) (fs w) true)
      | Raise e =>
          if is_Exception (exc_cls e) then
            (Ok tt,
             mkWorld (stdin w)
               (tr2 ++ [EvPrint (py "❌ No se pudo obtener información: " ++ exc_msg e) nl])
               (fs w) true)
          else (Raise e, mkWorld (stdin w) tr2 (fs w) true)
      end
    else (Raise (mkExc ImportError (py "No module named 'yt_dlp'")), w).
Proof.
  destruct w as [pend tr f imp].
  unfold obtener_info, ficha_info, linea_calidades. desplegar.
  destruct imp; [|reflexivity]. ordenar.
  destruct (ydl_extract_info _ _ _ _ _) as [info|e]; ordenar.
  - destruct (bool_decide _); ordenar; reflexivity.
  - destruct (is_Exception _); ordenar; reflexivity.
Qed.

(** The set of resolutions holds the heights that some format carries and
    that are not zero. *)
Lemma elem_of_resoluciones (fmts : list formato_info) (h : Z) :
  h ∈ resoluciones fmts ↔ h ≠ 0%Z ∧ ∃ f, f ∈ fmts ∧ height f = Some h.
Proof.
  unfold resoluciones.
  set (paso := λ (acc : gset Z) f,
         match height f with
         | Some h0 => if bool_decide (h0 = 0%Z) then acc else acc ∪ {[h0]}
         | None => acc
         end).
  assert (Hgen : ∀ acc, h ∈ foldl paso acc fmts
                        ↔ h ∈ acc ∨ (h ≠ 0%Z ∧ ∃ f, f ∈ fmts ∧ height f = Some h)).
  { induction fmts as [|f fmts IH]; intros acc; simpl.
    - split; [by left|]. intros [H|(_ & f & Hf & _)]; [done|]. by apply elem_of_nil in Hf.
    - rewrite IH. unfold paso at 1. split.
      + intros [H|(Hnz & f' & Hf' & Hh)].
        * destruct (height f) as [h0|] eqn:Eh; [|by left].
          case_bool_decide as Hz; [by left|].
          apply elem_of_union in H as [H|H]; [by left|].
          apply elem_of_singleton in H as ->. right. split; [done|].
          exists f. split; [by left|done].
        * right. split; [done|]. exists f'. split; [by right|done].
      + intros [H|(Hnz & f' & Hf' & Hh)].
        * left. destruct (height f) as [h0|]; [|done].
          case_bool_decide; [done|]. set_solver.
        * apply elem_of_cons in Hf' as [->|Hf'].
          -- left. rewrite Hh. rewrite bool_decide_eq_false_2 by done. set_solver.
          -- right. split; [done|]. by exists f'. }
  rewrite Hgen. split; [|by right]. intros [H|H]; [|done]. set_solver.
Qed.

#[local] Instance Z_ge_transitive : Transitive Z.ge.
Proof. intros x y z. lia. Qed.

#[local] Instance Z_ge_total : Total Z.ge.
Proof. intros x y. lia. Qed.

Lemma StronglySorted_ge_gt (l : list Z) :
  StronglySorted Z.ge l → NoDup l → StronglySorted Z.gt l.
Proof.
  induction 1 as [|x l Hs IH Hall]; intros Hnd; [constructor|].
  apply NoDup_cons in Hnd as [Hx Hnd]. constructor; [by apply IH|].
  rewrite Forall_forall in Hall |- *. intros y Hy.
  specialize (Hall y Hy). assert (x ≠ y) by (intros ->; done). lia.
Qed.

(** [sorted(rs, reverse=True)] lists the elements of the set, each once,
    from the largest to the smallest. *)
Lemma sorted_reverse_spec (rs : gset Z) :
  StronglySorted Z.gt (sorted_reverse rs)
  ∧ ∀ h, h ∈ sorted_reverse rs ↔ h ∈ rs.
Proof.
  unfold sorted_reverse.
  pose proof (merge_sort_Permutation Z.ge (elements rs)) as Hp. split.
  - apply StronglySorted_ge_gt; [apply StronglySorted_merge_sort; apply _|].
    rewrite Hp. apply NoDup_elements.
  - intros h. rewrite Hp. apply elem_of_elements.
Qed.

(** C8 (amended). The info operation first imports [yt_dlp], outside its
    [try] block: when the module is missing the [ImportError] leaves the
    operation with nothing printed and the library not called. Otherwise it
    makes one call to the library, an extraction with [download=False]; when
    that returns the metadata the operation prints title, author, duration
    and upload date, and the vertical resolutions (those that are not zero),
    each once, from the largest to the smallest, each followed by "p" and
    joined by ", ", the line being left out when there is none; an exception
    of the extraction that derives from [Exception] is printed as the
    generic diagnostic and the operation returns; an exception outside
    [Exception] is not caught. *)
Theorem obtener_info_resultados (rt : runtime) (url : str) (w : world) :
  let tr1 := trace w ++ [EvPrint (nl ++ py " Obteniendo información del video...") nl] in
  let r := (obtener_info rt url w).1 in
  let tr' := trace (obtener_info rt url w).2 in
  if yt_dlp_importable w then
    match ydl_extract_info rt tr1 opciones_info url false with
    | Ok info =>
        r = Ok tt
        ∧ tr' = tr1 ++ EvExtract opciones_info url false ::
                  [ EvPrint (nl ++ py " Información del video:") nl;
                    EvPrint (py "   Título:    " ++ get_na (title info)) nl;
                    EvPrint (py "   Usuario:   " ++ get_na (uploader info)) nl;
                    EvPrint (py "   Duración:  " ++ get_na (duration info) ++ py " segundos") nl;
                    EvPrint (py "   Fecha:     " ++ get_na (upload_date info)) nl ]
                  ++ linea_calidades (formats info)
        ∧ ∃ rs : list Z,
            StronglySorted Z.gt rs
            ∧ (∀ h, h ∈ rs ↔ h ≠ 0%Z ∧ ∃ f, f ∈ formats info ∧ height f = Some h)
            ∧ linea_calidades (formats info)
              = match rs with
                | [] => []
                | _ :: _ =>
                    [ EvPrint (py "   Calidades: "
                                 ++ join (py ", ") (map (λ h, str_of_Z h ++ py "p") rs)) nl ]
                end
    | Raise e =>
        if is_Exception (exc_cls e) then
          r = Ok tt
          ∧ tr' = tr1 ++ [ EvExtract opciones_info url false;
                           EvPrint (py "❌ No se pudo obtener información: " ++ exc_msg e) nl ]
        else
          r = Raise e ∧ tr' = tr1 ++ [ EvExtract opciones_info url false ]
    end
  else
    (∃ e, r = Raise e ∧ exc_cls e = ImportError) ∧ tr' = trace w.
Proof.
  cbv zeta. rewrite obtener_info_eq.
  destruct (yt_dlp_importable w); [|split; [by eexists|done]]. cbv zeta.
  destruct (ydl_extract_info _ _ _ _ _) as [info|e].
  - split; [done|]. split.
    { cbn [snd trace]. unfold ficha_info. by rewrite <- !app_assoc. }
    exists (sorted_reverse (resoluciones (formats info))).
    destruct (sorted_reverse_spec (resoluciones (formats info))) as [Hs Hin].
    split; [done|]. split.
    { intros h. rewrite Hin. apply elem_of_resoluciones. }
    unfold linea_calidades, calidades_texto. case_bool_decide as He.
    + destruct (sorted_reverse _) as [|h l] eqn:E; [done|].
      assert (h ∈ resoluciones (formats info)) by (apply Hin; by left).
      rewrite He in *. set_solver.
    + destruct (sorted_reverse _) as [|h l] eqn:E; [|done].
      destruct He. apply set_eq. intros h. rewrite <- Hin. set_solver.
  - destruct (is_Exception _); split; try done;
      cbn [snd trace]; by rewrite <- !app_assoc.
Qed.

Lemma obtener_info_resultados_witness :
  trace (obtener_info rt_ok url_demo (mundo [])).2
  = [ EvPrint (nl ++ py " Obteniendo información del video...") nl;
      EvExtract opciones_info url_demo false;
      EvPrint (nl ++ py " Información del video:") nl;
      EvPrint (py "   Título:    Demo") nl;
      EvPrint (py "   Usuario:   user") nl;
      EvPrint (py "   Duración:  12.5 segundos") nl;
      EvPrint (py "   Fecha:     N/A") nl;
      EvPrint (py "   Calidades: 1080p, 720p") nl ].
Proof.
  pose proof (obtener_info_resultados rt_ok url_demo (mundo [])) as H.
  cbv zeta in H. cbn [mundo yt_dlp_importable rt_ok ydl_extract_info] in H.
  destruct H as (_ & H & _). rewrite H. by vm_compute.
Defined.

(** Two exceptions the info operation does not catch. The library
    interrupted from the keyboard: the [KeyboardInterrupt] leaves the
    operation and no diagnostic is printed. The module missing: the
    [ImportError], which derives from [Exception], leaves the operation from
    the import of line 86, before the [try] block, with nothing printed at
    all. *)
Lemma obtener_info_propaga :
  obtener_info rt_ctrl_c url_demo (mundo [])
  = (Raise (mkExc KeyboardInterrupt []),
     mkWorld []
       [ EvPrint (nl ++ py " Obteniendo información del video...") nl;
         EvExtract opciones_info url_demo false ]
       ∅ true)
  ∧ is_Exception ImportError = true
  ∧ obtener_info rt_ok url_demo (mundo_sin_modulo [])
    = (Raise (mkExc ImportError (py "No module named 'yt_dlp'")), mundo_sin_modulo []).
Proof. by vm_compute. Qed.

(** ** The events of a download *)

Lemma es_hito_print_nl (t : str) : es_hito (EvPrint t nl) = false.
Proof. reflexivity. Qed.

Lemma opciones_descarga_format (carpeta calidad : str) :
  opciones_descarga carpeta calidad !! py "format" = Some (OStr (formato_de calidad)).
Proof. unfold opciones_descarga. apply lookup_insert_eq. Qed.

Lemma uso_calidad_extract (carpeta calidad url : str) :
  uso_calidad calidad (EvExtract (opciones_descarga carpeta calidad) url true).
Proof.
  split; [done|]. split; [apply opciones_descarga_format | by exists carpeta].
Qed.

Ltac otra_linea := intros H; vm_compute in H; discriminate H.

Lemma uso_calidad_cabecera (rt : runtime) (url carpeta calidad : str) :
  Forall (uso_calidad calidad) (cabecera_descarga rt url carpeta calidad).
Proof.
  unfold cabecera_descarga.
  repeat apply Forall_cons_2; [otra_linea | otra_linea | otra_linea | | constructor].
  by intros _.
Qed.

Lemma uso_calidad_diagnostico (q : str) (e : exc) (diag : list event) :
  diagnostico_descarga e = Some diag → Forall (uso_calidad q) diag.
Proof.
  unfold diagnostico_descarga.
  destruct (is_DownloadError _); [|destruct (is_Exception _); [|done]];
    intros [= <-]; repeat apply Forall_cons_2; try constructor; otra_linea.
Qed.

Lemma uso_calidad_confirmacion (q nombre : str) :
  Forall (uso_calidad q) (confirmacion_descarga nombre).
Proof.
  unfold confirmacion_descarga.
  repeat apply Forall_cons_2; try constructor; otra_linea.
Qed.

Lemma uso_calidad_ydl (rt : runtime) (tr : list event) (carpeta calidad url : str) :
  Forall (uso_calidad calidad)
    (ydl_descarga rt tr (opciones_descarga carpeta calidad) url).2.
Proof.
  destruct (ydl_descarga_eventos rt tr (opciones_descarga carpeta calidad) url)
    as (resto & -> & Hresto).
  apply Forall_cons_2; [apply uso_calidad_extract|].
  destruct Hresto as [->|[info ->]]; [constructor|].
  by apply Forall_cons_2.
Qed.

(** Whatever happens, everything a download leaves in the trace shows the
    quality it was called with. *)
Lemma descargar_video_eventos (rt : runtime) (url carpeta calidad : str) (w : world) :
  ∃ seg, trace (descargar_video rt url carpeta calidad w).2 = trace w ++ seg
       ∧ Forall (uso_calidad calidad) seg.
Proof.
  rewrite descargar_video_eq.
  destruct (yt_dlp_importable w); [|exists []; by rewrite app_nil_r].
  destruct (Path_mkdir_parents _ _ _ _) as [fs1|e]; [|exists []; by rewrite app_nil_r].
  cbv zeta.
  pose proof (uso_calidad_ydl rt (trace w ++ cabecera_descarga rt url carpeta calidad)
                carpeta calidad url) as Hy.
  pose proof (uso_calidad_cabecera rt url carpeta calidad) as Hc.
  destruct (ydl_descarga _ _ _ _) as [[nombre|e] evs]; cbn [snd] in Hy.
  - eexists. cbn [snd trace]. rewrite <- app_assoc. split; [reflexivity|].
    rewrite !Forall_app. auto using uso_calidad_confirmacion.
  - destruct (diagnostico_descarga e) as [diag|] eqn:Hd.
    + eexists. cbn [snd trace]. rewrite <- app_assoc. split; [reflexivity|].
      rewrite !Forall_app. eauto using uso_calidad_diagnostico.
    + eexists. cbn [snd trace]. rewrite <- app_assoc. split; [reflexivity|].
      rewrite !Forall_app. auto.
Qed.

Lemma cabecera_sin_hitos (rt : runtime) (url carpeta calidad : str) :
  filter (λ ev, es_hito ev = true) (cabecera_descarga rt url carpeta calidad) = [].
Proof. by vm_compute. Qed.

Lemma confirmacion_sin_hitos (nombre : str) :
  filter (λ ev, es_hito ev = true) (confirmacion_descarga nombre) = [].
Proof. by vm_compute. Qed.

Lemma diagnostico_sin_hitos (e : exc) (diag : list event) :
  diagnostico_descarga e = Some diag → filter (λ ev, es_hito ev = true) diag = [].
Proof.
  unfold diagnostico_descarga.
  destruct (is_DownloadError _); [|destruct (is_Exception _); [|discriminate]];
    intros [= <-]; by vm_compute.
Qed.

(** With the module imported, the directory created and a library that
    raises nothing outside [Exception], a download returns, and its trace
    holds one extraction and no progress marker. *)
Lemma descargar_video_hitos (rt : runtime) (url carpeta calidad : str) (w : world)
    (fs1 : gmap path node) :
  solo_Exception rt →
  yt_dlp_importable w = true →
  Path_mkdir_parents (Path carpeta).1 (Path carpeta).2 true (fs w) = Ok fs1 →
  ∃ v seg,
    descargar_video rt url carpeta calidad w
    = (Ok v, mkWorld (stdin w) (trace w ++ seg) fs1 true)
    ∧ filter (λ ev, es_hito ev = true) seg
      = [EvExtract (opciones_descarga carpeta calidad) url true].
Proof.
  intros [Hex Hpr] Himp Hmk. rewrite descargar_video_eq, Himp, Hmk. cbv zeta.
  set (tr1 := trace w ++ cabecera_descarga rt url carpeta calidad).
  set (o := opciones_descarga carpeta calidad).
  assert (Hy : ∃ resto, (ydl_descarga rt tr1 o url).2 = EvExtract o url true :: resto
                 ∧ filter (λ ev, es_hito ev = true) resto = []
                 ∧ ∀ e, (ydl_descarga rt tr1 o url).1 = Raise e →
                        is_Exception (exc_cls e) = true).
  { unfold ydl_descarga. destruct (ydl_extract_info rt tr1 o url true) as [info|e] eqn:E.
    - exists [EvPrepare o info]. split; [reflexivity|]. split; [reflexivity|].
      cbn [fst]. intros e. apply Hpr.
    - exists []. split; [reflexivity|]. split; [reflexivity|].
      cbn [fst]. intros e' [= <-]. by apply Hex in E. }
  destruct Hy as (resto & Hev & Hr & Hexc).
  assert (Hseg : ∀ cola, filter (λ ev, es_hito ev = true) cola = [] →
            filter (λ ev, es_hito ev = true)
              (cabecera_descarga rt url carpeta calidad
                 ++ (EvExtract o url true :: resto) ++ cola)
            = [EvExtract o url true]).
  { intros cola Hc. rewrite !filter_app, cabecera_sin_hitos, Hc.
    rewrite filter_cons_True by reflexivity. by rewrite Hr. }
  destruct (ydl_descarga rt tr1 o url) as [[nombre|e] evs]; cbn [fst snd] in *; subst evs.
  - eexists _, (cabecera_descarga rt url carpeta calidad
                  ++ (EvExtract o url true :: resto) ++ confirmacion_descarga nombre).
    subst tr1. rewrite <- app_assoc. split; [reflexivity|].
    apply Hseg, confirmacion_sin_hitos.
  - specialize (Hexc e eq_refl). destruct (diagnostico_descarga e) as [diag|] eqn:Hd.
    + eexists _, (cabecera_descarga rt url carpeta calidad
                    ++ (EvExtract o url true :: resto) ++ diag).
      subst tr1. rewrite <- app_assoc. split; [reflexivity|].
      apply Hseg, (diagnostico_sin_hitos _ _ Hd).
    + unfold diagnostico_descarga in Hd. rewrite Hexc in Hd.
      by destruct (is_DownloadError _).
Qed.

(** ** What a successful [mkdir] leaves *)

Lemma os_mkdir_dir (p : path) (fs fs' : gmap path node) :
  os_mkdir p fs = Ok fs' → fs' = <[p := Dir]> fs ∧ Path_is_dir fs' p = true.
Proof.
  unfold os_mkdir. destruct (fs_lookup fs p); [done|].
  destruct (fs_lookup fs (p.1, tail p.2)) as [[|]|]; try done.
  intros [= <-]. split; [done|]. unfold Path_is_dir.
  rewrite fs_lookup_insert_dir. by rewrite decide_True.
Qed.

Lemma Path_mkdir_flat_dir (ok : bool) (p : path) (fs fs' : gmap path node) :
  Path_mkdir_flat ok p fs = Ok fs' → Path_is_dir fs' p = true.
Proof.
  unfold Path_mkdir_flat. destruct (os_mkdir p fs) as [fs0|e] eqn:E.
  - intros [= <-]. by apply os_mkdir_dir in E as [_ ?].
  - destruct (is_FileNotFoundError _); [done|].
    destruct (ok && Path_is_dir fs p) eqn:Hc; [|done].
    intros [= <-]. by apply andb_true_iff in Hc as [_ ?].
Qed.

Lemma Path_mkdir_parents_dir (a ok : bool) (rp : list str) (fs fs' : gmap path node) :
  Path_mkdir_parents a rp ok fs = Ok fs' → Path_is_dir fs' (a, rp) = true.
Proof.
  destruct rp as [|c rp]; cbn [Path_mkdir_parents];
    destruct (os_mkdir _ fs) as [fs0|e] eqn:E;
    try (intros [= <-]; by apply os_mkdir_dir in E as [_ ?]).
  - destruct (is_FileNotFoundError _); [done|].
    destruct (ok && Path_is_dir fs (a, [])) eqn:Hc; [|done].
    intros [= <-]. by apply andb_true_iff in Hc as [_ ?].
  - destruct (is_FileNotFoundError _).
    + destruct (Path_mkdir_parents a rp true fs) as [fs1|e1]; [|done].
      apply Path_mkdir_flat_dir.
    + destruct (ok && Path_is_dir fs (a, c :: rp)) eqn:Hc; [|done].
      intros [= <-]. by apply andb_true_iff in Hc as [_ ?].
Qed.

(** Creating a directory that was just created changes nothing. *)
Lemma Path_mkdir_parents_again (a : bool) (rp : list str) (fs fs' : gmap path node) :
  Path_mkdir_parents a rp true fs = Ok fs' → Path_mkdir_parents a rp true fs' = Ok fs'.
Proof.
  intros H. by apply Path_mkdir_parents_existing, (Path_mkdir_parents_dir a true rp fs).
Qed.

(** ** The destination directory, created once and again *)




(** ** The batch *)

Ltac ordenar_todo := cbv zeta; repeat (rewrite <- app_assoc || (progress (cbn [app]))).

(** The collecting loop, one turn at a time, as the source writes it. *)
Lemma leer_urls_paso (rt : runtime) (urls : list str) (w : world) :
  leer_urls rt urls w =
    match input (py "> ") w with
    | (Raise e, w1) => (Raise e, w1)
    | (Ok linea, w1) =>
        let url := strip linea in
        if bool_decide (str_lower rt url = py "listo") then (Ok urls, w1)
        else if es_url_valida rt url then leer_urls rt (urls ++ [url]) w1
        else if truthy url then
          leer_urls rt urls (print (py "    URL inválida, omitida.") w1).2
        else leer_urls rt urls w1
    end.
Proof.
  destruct w as [pend tr f b]. unfold leer_urls. desplegar.
  destruct pend as [|linea pend]; cbn [leer_urls_desde]; [reflexivity|].
  cbv zeta. destruct (bool_decide _); [reflexivity|].
  destruct (es_url_valida _ _); [reflexivity|].
  destruct (truthy _); reflexivity.
Qed.

(** Up to the first line that reads "listo": the valid lines are kept in
    order, each turn writes its prompt, and an invalid line that is not
    blank gets its notice. *)
Lemma leer_urls_desde_listo (rt : runtime) (lineas : list str) (fin : str)
    (resto urls : list str) (tr : list event) :
  Forall (λ l, str_lower rt (strip l) ≠ py "listo") lineas →
  str_lower rt (strip fin) = py "listo" →
  leer_urls_desde rt (lineas ++ fin :: resto) urls tr
  = (Ok (urls ++ filter (λ u, es_url_valida rt u = true) (map strip lineas)),
     resto,
     tr ++ flat_map (eventos_linea rt) lineas ++ [EvPrompt (py "> ")]).
Proof.
  intros Hno Hfin. revert urls tr.
  induction Hno as [|l lineas Hl _ IH]; intros urls tr; cbn [app leer_urls_desde].
  - cbv zeta. rewrite bool_decide_eq_true_2 by done. by rewrite app_nil_r.
  - cbv zeta. rewrite bool_decide_eq_false_2 by done.
    cbn [map flat_map]. unfold eventos_linea at 1.
    destruct (es_url_valida rt (strip l)) eqn:Hv.
    + rewrite IH. rewrite filter_cons_True by done. by rewrite <- !app_assoc.
    + rewrite filter_cons_False by (rewrite Hv; done).
      destruct (truthy (strip l)); rewrite IH; by rewrite <- !app_assoc.
Qed.

Lemma uso_calidad_aviso (q : str) : uso_calidad q aviso_omitida.
Proof. otra_linea. Qed.

Lemma uso_calidad_pide_url (q : str) : uso_calidad q (EvPrompt (py "> ")).
Proof. otra_linea. Qed.

Lemma uso_calidad_pide_carpeta (q : str) :
  uso_calidad q (EvPrompt (py "Carpeta destino (Enter = 'descargas_twitter'): ")).
Proof. otra_linea. Qed.

(** The collecting loop writes prompts and notices only. *)
Lemma leer_urls_desde_eventos (rt : runtime) (q : str) (pend urls : list str)
    (tr : list event) :
  ∃ seg, (leer_urls_desde rt pend urls tr).2 = tr ++ seg ∧ Forall (uso_calidad q) seg.
Proof.
  revert urls tr. induction pend as [|l pend IH]; intros urls tr; cbn [leer_urls_desde].
  - exists [EvPrompt (py "> ")]. split; [done|].
    apply Forall_cons_2; [apply uso_calidad_pide_url | constructor].
  - cbv zeta. destruct (bool_decide _).
    { exists [EvPrompt (py "> ")]. split; [done|].
      apply Forall_cons_2; [apply uso_calidad_pide_url | constructor]. }
    destruct (es_url_valida _ _); [|destruct (truthy _)].
    + destruct (IH (urls ++ [strip l]) (tr ++ [EvPrompt (py "> ")])) as (seg & -> & Hs).
      exists (EvPrompt (py "> ") :: seg). rewrite <- app_assoc. split; [done|].
      apply Forall_cons_2; [apply uso_calidad_pide_url | exact Hs].
    + destruct (IH urls ((tr ++ [EvPrompt (py "> ")]) ++ [EvPrint (py "    URL inválida, omitida.") nl]))
        as (seg & -> & Hs).
      exists (EvPrompt (py "> ") :: aviso_omitida :: seg). rewrite <- !app_assoc.
      split; [done|]. apply Forall_cons_2; [apply uso_calidad_pide_url|].
      apply Forall_cons_2; [apply uso_calidad_aviso | done].
    + destruct (IH urls (tr ++ [EvPrompt (py "> ")])) as (seg & -> & Hs).
      exists (EvPrompt (py "> ") :: seg). rewrite <- app_assoc. split; [done|].
      apply Forall_cons_2; [apply uso_calidad_pide_url | exact Hs].
Qed.

Lemma uso_calidad_marcador (q : str) (i total : nat) : uso_calidad q (marcador i total).
Proof. otra_linea. Qed.

(** Every download of the loop of the batch shows the quality "best". *)
Lemma descargar_lote_eventos (rt : runtime) (carpeta : str) (total : nat)
    (urls : list str) (i : nat) (w : world) :
  ∃ seg, trace (descargar_lote rt i total urls carpeta w).2 = trace w ++ seg
       ∧ Forall (uso_calidad (py "best")) seg.
Proof.
  revert i w. induction urls as [|u urls IH]; intros i w; cbn [descargar_lote].
  - exists []. split; [by rewrite app_nil_r | constructor].
  - unfold mbind, M_bind, bind, print_end. fold (marcador i total).
    set (w1 := emit (marcador i total) w).
    destruct (descargar_video_eventos rt u carpeta (py "best") w1) as (seg1 & H1 & Hs1).
    destruct (descargar_video rt u carpeta (py "best") w1) as [[v|e] w2]; cbn [snd] in *.
    + destruct (IH (S i) w2) as (seg2 & -> & Hs2). rewrite H1.
      exists (marcador i total :: seg1 ++ seg2). subst w1. cbn [emit trace].
      rewrite <- !app_assoc. split; [reflexivity|].
      apply Forall_cons_2; [apply uso_calidad_marcador|]. by apply Forall_app.
    + rewrite H1. exists (marcador i total :: seg1). subst w1. cbn [emit trace].
      rewrite <- !app_assoc. split; [reflexivity|].
      apply Forall_cons_2; [apply uso_calidad_marcador | exact Hs1].
Qed.

(** The loop of the batch, when every download returns: one marker and one
    extraction for each URL, in order. *)
Lemma descargar_lote_hitos (rt : runtime) (carpeta : str) (total : nat)
    (fs1 : gmap path node) (urls : list str) (i : nat) (w : world) :
  solo_Exception rt →
  yt_dlp_importable w = true →
  Path_mkdir_parents (Path carpeta).1 (Path carpeta).2 true (fs w) = Ok fs1 →
  ∃ seg w',
    descargar_lote rt i total urls carpeta w = (Ok tt, w')
    ∧ stdin w' = stdin w
    ∧ trace w' = trace w ++ seg
    ∧ filter (λ ev, es_hito ev = true) seg = hitos_lote carpeta i total urls.
Proof.
  intros Hrt. revert i w. induction urls as [|u urls IH]; intros i w Himp Hmk;
    cbn [descargar_lote hitos_lote].
  - exists [], w. by rewrite app_nil_r.
  - unfold mbind, M_bind, bind, print_end. fold (marcador i total).
    set (w1 := emit (marcador i total) w).
    destruct (descargar_video_hitos rt u carpeta (py "best") w1 fs1 Hrt Himp Hmk)
      as (v & seg1 & -> & Hs1).
    edestruct (IH (S i)) as (seg2 & w' & -> & Hin & Htr & Hs2).
    { reflexivity. }
    { cbn [fs]. by apply Path_mkdir_parents_again in Hmk. }
    exists (marcador i total :: seg1 ++ seg2), w'. split; [reflexivity|].
    split; [exact Hin|].
    rewrite Htr. subst w1. cbn [emit trace]. rewrite <- !app_assoc.
    split; [reflexivity|].
    rewrite filter_cons_True by reflexivity. by rewrite filter_app, Hs1, Hs2.
Qed.

(** C4 (amended). In batch mode, the lines entered before the first line
    that reads "listo" (in any case) are each stripped; every turn writes
    its prompt, and a line that fails the validation gets the notice
    "URL inválida, omitida." when it is not blank and nothing when it is.
    With [yt_dlp] imported, the destination directory creatable, and no
    download ending in an exception outside [Exception], the stripped lines
    that pass the validation are downloaded, one attempt each, in the order
    they were entered, each attempt preceded by its "[i/total]" marker. *)
Theorem lote_descarga_validas (rt : runtime) (w : world) (lineas : list str)
    (fin l_carpeta : str) (resto : list str) (fs1 : gmap path node) :
  stdin w = lineas ++ fin :: l_carpeta :: resto →
  Forall (λ l, str_lower rt (strip l) ≠ py "listo") lineas →
  str_lower rt (strip fin) = py "listo" →
  yt_dlp_importable w = true →
  solo_Exception rt →
  Path_mkdir_parents
    (Path (or_else (strip l_carpeta) (py "descargas_twitter"))).1
    (Path (or_else (strip l_carpeta) (py "descargas_twitter"))).2 true (fs w) = Ok fs1 →
  let carpeta := or_else (strip l_carpeta) (py "descargas_twitter") in
  let urls := filter (λ u, es_url_valida rt u = true) (map strip lineas) in
  ∃ descargas w',
    menu_opcion_3 rt w = (Ok tt, w')
    ∧ trace w'
      = trace w
        ++ [EvPrint (nl ++ py "Ingresa las URLs (una por línea). Escribe 'listo' cuando termines:") nl]
        ++ flat_map (eventos_linea rt) lineas
        ++ [EvPrompt (py "> ")]
        ++ match urls with
           | [] => [EvPrint (py "No se ingresaron URLs válidas.") nl]
           | _ :: _ =>
               [ EvPrompt (py "Carpeta destino (Enter = 'descargas_twitter'): ");
                 EvPrint (nl ++ py "Descargando " ++ str_of_nat (length urls)
                            ++ py " videos..." ++ nl) nl ]
               ++ descargas
           end
    ∧ filter (λ ev, es_hito ev = true) descargas
      = hitos_lote carpeta 1 (length urls) urls.
Proof.
  intros Hin Hno Hfin Himp Hrt Hmk. cbv zeta.
  destruct w as [pend tr f imp]. cbn [stdin trace fs yt_dlp_importable] in *.
  subst pend imp.
  set (carpeta := or_else (strip l_carpeta) (py "descargas_twitter")) in *.
  set (urls := filter (λ u, es_url_valida rt u = true) (map strip lineas)).
  set (tr1 := tr ++ [EvPrint (nl ++ py "Ingresa las URLs (una por línea). Escribe 'listo' cuando termines:") nl]
                ++ flat_map (eventos_linea rt) lineas ++ [EvPrompt (py "> ")]).
  assert (Hrun :
    menu_opcion_3 rt (mkWorld (lineas ++ fin :: l_carpeta :: resto) tr f true)
    = match urls with
      | [] => (Ok tt,
               mkWorld (l_carpeta :: resto)
                 (tr1 ++ [EvPrint (py "No se ingresaron URLs válidas.") nl]) f true)
      | _ :: _ =>
          descargar_lote rt 1 (length urls) urls carpeta
            (mkWorld resto
               (tr1 ++ [ EvPrompt (py "Carpeta destino (Enter = 'descargas_twitter'): ");
                         EvPrint (nl ++ py "Descargando " ++ str_of_nat (length urls)
                                    ++ py " videos..." ++ nl) nl ])
               f true)
      end).
  { unfold menu_opcion_3, leer_urls. desplegar.
    rewrite (leer_urls_desde_listo rt lineas fin _ _ _ Hno Hfin). cbn [app].
    fold urls. subst tr1. destruct urls as [|u urls']; desplegar; ordenar; reflexivity. }
  rewrite Hrun. subst tr1. destruct urls as [|u urls'].
  - eexists [], _. split; [reflexivity|]. split; [|reflexivity].
    cbn [trace]. by rewrite <- !app_assoc.
  - match goal with
    | |- context [descargar_lote rt 1 ?n ?us ?c ?w0] =>
        destruct (descargar_lote_hitos rt c n fs1 us 1 w0 Hrt eq_refl Hmk)
          as (seg & w' & -> & _ & Htr & Hs)
    end.
    exists seg, w'. split; [reflexivity|]. split; [|exact Hs].
    rewrite Htr. cbn [trace]. by rewrite <- !app_assoc.
Qed.

Lemma solo_Exception_rt_ok : solo_Exception rt_ok.
Proof. split; intros; discriminate. Qed.

Lemma lote_descarga_validas_witness :
  ∃ descargas w',
    menu_opcion_3 rt_ok
      (mundo [ py "no es una url"; py "https://x.com/a/status/1";
               py "  https://twitter.com/b/status/22 "; py "LISTO"; py "" ])
    = (Ok tt, w')
    ∧ filter (λ ev, es_hito ev = true) descargas
      = [ marcador 1 2;
          EvExtract (opciones_descarga (py "descargas_twitter") (py "best"))
            (py "https://x.com/a/status/1") true;
          marcador 2 2;
          EvExtract (opciones_descarga (py "descargas_twitter") (py "best"))
            (py "https://twitter.com/b/status/22") true ].
Proof.
  destruct (lote_descarga_validas rt_ok
              (mundo [ py "no es una url"; py "https://x.com/a/status/1";
                       py "  https://twitter.com/b/status/22 "; py "LISTO"; py "" ])
              [ py "no es una url"; py "https://x.com/a/status/1";
                py "  https://twitter.com/b/status/22 " ]
              (py "LISTO") (py "") []
              {[ (false, [py "descargas_twitter"]) := Dir ]})
    as (descargas & w' & Hrun & _ & Hh).
  - reflexivity.
  - repeat constructor; vm_compute; discriminate.
  - vm_compute; reflexivity.
  - reflexivity.
  - apply solo_Exception_rt_ok.
  - reflexivity.
  - exists descargas, w'. split; [exact Hrun | exact Hh].
Defined.

(** Blank lines fail the validation and get no notice: the trace of a batch
    fed an empty line, a line of spaces and the sentinel holds the three
    prompts and no "URL inválida, omitida." *)
Lemma lote_linea_en_blanco :
  es_url_valida rt_ok (strip []) = false
  ∧ es_url_valida rt_ok (strip (py "   ")) = false
  ∧ menu_opcion_3 rt_ok (mundo [ []; py "   "; py "listo" ])
    = (Ok tt,
       mkWorld []
         [ EvPrint (nl ++ py "Ingresa las URLs (una por línea). Escribe 'listo' cuando termines:") nl;
           EvPrompt (py "> "); EvPrompt (py "> "); EvPrompt (py "> ");
           EvPrint (py "No se ingresaron URLs válidas.") nl ]
         ∅ true).
Proof. vm_compute. repeat split; reflexivity. Qed.

(** What option 3 does, up to the loop of downloads. *)
Lemma menu_opcion_3_eq (rt : runtime) (lineas : list str) (fin l_carpeta : str)
    (resto : list str) (tr : list event) (f : gmap path node) (imp : bool) :
  Forall (λ l, str_lower rt (strip l) ≠ py "listo") lineas →
  str_lower rt (strip fin) = py "listo" →
  menu_opcion_3 rt (mkWorld (lineas ++ fin :: l_carpeta :: resto) tr f imp)
  = let tr1 := tr ++ [EvPrint (nl ++ py "Ingresa las URLs (una por línea). Escribe 'listo' cuando termines:") nl]
                  ++ flat_map (eventos_linea rt) lineas ++ [EvPrompt (py "> ")] in
    match filter (λ u, es_url_valida rt u = true) (map strip lineas) with
    | [] => (Ok tt,
             mkWorld (l_carpeta :: resto)
               (tr1 ++ [EvPrint (py "No se ingresaron URLs válidas.") nl]) f imp)
    | u :: us =>
        descargar_lote rt 1 (length (u :: us)) (u :: us)
          (or_else (strip l_carpeta) (py "descargas_twitter"))
          (mkWorld resto
             (tr1 ++ [ EvPrompt (py "Carpeta destino (Enter = 'descargas_twitter'): ");
                       EvPrint (nl ++ py "Descargando " ++ str_of_nat (length (u :: us))
                                  ++ py " videos..." ++ nl) nl ])
             f imp)
    end.
Proof.
  intros Hno Hfin. unfold menu_opcion_3, leer_urls. desplegar.
  rewrite (leer_urls_desde_listo rt lineas fin _ _ _ Hno Hfin). cbn [app].
  destruct (filter _ (map strip lineas)) as [|u us]; desplegar; ordenar_todo; reflexivity.
Qed.

(** ** The quality of a batch *)

Lemma cabecera_calidad (rt : runtime) (url carpeta calidad : str) :
  filter (λ ev, es_calidad ev = true) (cabecera_descarga rt url carpeta calidad)
  = [EvPrint (py "   Calidad: " ++ calidad ++ nl) nl].
Proof. by vm_compute. Qed.

Lemma confirmacion_sin_calidad (nombre : str) :
  filter (λ ev, es_calidad ev = true) (confirmacion_descarga nombre) = [].
Proof. by vm_compute. Qed.

Lemma diagnostico_sin_calidad (e : exc) (diag : list event) :
  diagnostico_descarga e = Some diag → filter (λ ev, es_calidad ev = true) diag = [].
Proof.
  unfold diagnostico_descarga.
  destruct (is_DownloadError _); [|destruct (is_Exception _); [|discriminate]];
    intros [= <-]; by vm_compute.
Qed.

Lemma ydl_descarga_calidad (rt : runtime) (tr : list event) (o : gmap str optval)
    (url : str) :
  filter (λ ev, es_calidad ev = true) (ydl_descarga rt tr o url).2 = [EvExtract o url true].
Proof.
  destruct (ydl_descarga_eventos rt tr o url) as (resto & -> & [->|[info ->]]);
    reflexivity.
Qed.

Lemma eventos_linea_sin_calidad (rt : runtime) (lineas : list str) :
  filter (λ ev, es_calidad ev = true) (flat_map (eventos_linea rt) lineas) = [].
Proof.
  induction lineas as [|l lineas IH]; [reflexivity|].
  cbn [flat_map]. rewrite filter_app, IH, app_nil_r. unfold eventos_linea.
  destruct (es_url_valida _ _); [by vm_compute|].
  destruct (truthy _); by vm_compute.
Qed.

Lemma marcador_sin_calidad (i total : nat) : es_calidad (marcador i total) = false.
Proof. by vm_compute. Qed.

Lemma rotulo_lote_sin_calidad :
  filter (λ ev, es_calidad ev = true)
    [EvPrint (nl ++ py "Ingresa las URLs (una por línea). Escribe 'listo' cuando termines:") nl]
  = [].
Proof. by vm_compute. Qed.

Lemma pide_url_sin_calidad :
  filter (λ ev, es_calidad ev = true) [EvPrompt (py "> ")] = [].
Proof. by vm_compute. Qed.

Lemma pide_carpeta_sin_calidad (n : nat) :
  filter (λ ev, es_calidad ev = true)
    [ EvPrompt (py "Carpeta destino (Enter = 'descargas_twitter'): ");
      EvPrint (nl ++ py "Descargando " ++ str_of_nat n ++ py " videos..." ++ nl) nl ]
  = [].
Proof. by vm_compute. Qed.

(** A download either stops before it prints anything, at the import or at
    the creation of the directory, or shows its quality twice: in the header
    and in the options of the extraction. *)
Lemma descargar_video_calidad (rt : runtime) (url carpeta calidad : str) (w : world) :
  ∃ seg,
    trace (descargar_video rt url carpeta calidad w).2 = trace w ++ seg
    ∧ (filter (λ ev, es_calidad ev = true) seg
       = [ EvPrint (py "   Calidad: " ++ calidad ++ nl) nl;
           EvExtract (opciones_descarga carpeta calidad) url true ]
       ∨ (seg = [] ∧ ∃ e, (descargar_video rt url carpeta calidad w).1 = Raise e)).
Proof.
  rewrite descargar_video_eq.
  destruct (yt_dlp_importable w);
    [|exists []; split; [by rewrite app_nil_r | right; split; [done | by eexists]]].
  destruct (Path_mkdir_parents _ _ _ _) as [fs1|e];
    [|exists []; split; [by rewrite app_nil_r | right; split; [done | by eexists]]].
  cbv zeta.
  pose proof (ydl_descarga_calidad rt (trace w ++ cabecera_descarga rt url carpeta calidad)
                (opciones_descarga carpeta calidad) url) as Hy.
  destruct (ydl_descarga _ _ _ _) as [[nombre|e] evs]; cbn [snd] in Hy.
  - eexists. cbn [snd trace]. rewrite <- app_assoc. split; [reflexivity|]. left.
    by rewrite !filter_app, cabecera_calidad, Hy, confirmacion_sin_calidad.
  - destruct (diagnostico_descarga e) as [diag|] eqn:Hd.
    + eexists. cbn [snd trace]. rewrite <- app_assoc. split; [reflexivity|]. left.
      by rewrite !filter_app, cabecera_calidad, Hy, (diagnostico_sin_calidad _ _ Hd).
    + eexists. cbn [snd trace]. rewrite <- app_assoc. split; [reflexivity|]. left.
      by rewrite !filter_app, cabecera_calidad, Hy.
Qed.

Lemma formato_de_best : formato_de (py "best") = py "best".
Proof. by vm_compute. Qed.

Lemma pregunta_calidad_eq : pregunta_calidad = py "Elige calidad (Enter = mejor): ".
Proof. by vm_compute. Qed.

Lemma linea_calidad_best :
  py "   Calidad: " ++ py "best" ++ nl = py "   Calidad: best" ++ nl.
Proof. by vm_compute. Qed.

(** The loop of the batch shows the quality [best] for its URLs in turn, as
    far as it gets, and for all of them when it returns. *)
Lemma descargar_lote_calidad (rt : runtime) (carpeta : str) (total : nat)
    (urls : list str) (i : nat) (w : world) :
  ∃ seg,
    trace (descargar_lote rt i total urls carpeta w).2 = trace w ++ seg
    ∧ filter (λ ev, es_calidad ev = true) seg `prefix_of` calidad_lote carpeta urls
    ∧ ((descargar_lote rt i total urls carpeta w).1 = Ok tt →
       filter (λ ev, es_calidad ev = true) seg = calidad_lote carpeta urls).
Proof.
  revert i w. induction urls as [|u urls IH]; intros i w; cbn [descargar_lote].
  - exists []. split; [by rewrite app_nil_r|]. split; [done|done].
  - unfold mbind, M_bind, bind, print_end. fold (marcador i total).
    set (w1 := emit (marcador i total) w).
    destruct (descargar_video_calidad rt u carpeta (py "best") w1) as (seg1 & H1 & Hs1).
    rewrite linea_calidad_best in Hs1.
    unfold calidad_lote. cbn [flat_map]. fold (calidad_lote carpeta urls).
    destruct (descargar_video rt u carpeta (py "best") w1) as [[v|e] w2]; cbn [fst snd] in *.
    + destruct Hs1 as [Hs1|[_ [e He]]]; [|discriminate He].
      destruct (IH (S i) w2) as (seg2 & -> & Hp2 & Hs2). rewrite H1.
      exists (marcador i total :: seg1 ++ seg2). subst w1. cbn [emit trace].
      rewrite <- !app_assoc. split; [reflexivity|].
      rewrite filter_cons_False by (rewrite marcador_sin_calidad; discriminate).
      rewrite filter_app, Hs1. split.
      * by apply prefix_app.
      * intros Hok. by rewrite (Hs2 Hok).
    + rewrite H1. exists (marcador i total :: seg1). subst w1. cbn [emit trace].
      rewrite <- !app_assoc. split; [reflexivity|].
      rewrite filter_cons_False by (rewrite marcador_sin_calidad; discriminate).
      split; [|discriminate].
      destruct Hs1 as [->|[-> _]]; [|apply prefix_nil].
      by eexists.
Qed.

(** Whatever the state of the session, what the batch flow leaves in the
    trace shows no quality but "best" and asks for none. *)
Lemma lote_calidad_segura (rt : runtime) (w : world) :
  ∃ seg,
     trace (menu_opcion_3 rt w).2 = trace w ++ seg
     ∧ ∀ ev, ev ∈ seg →
         match ev with
         | EvExtract o _ d =>
             d = true ∧ o !! py "format" = Some (OStr (py "best"))
             ∧ ∃ carpeta, o = opciones_descarga carpeta (py "best")
         | EvPrint t _ =>
             empieza_por (py "   Calidad: ") t = true → t = py "   Calidad: best" ++ nl
         | EvPrompt t => t ≠ py "Elige calidad (Enter = mejor): "
         | _ => True
         end.
Proof.
  assert (H : ∃ seg, trace (menu_opcion_3 rt w).2 = trace w ++ seg
                     ∧ Forall (uso_calidad (py "best")) seg).
  { destruct w as [pend tr f imp]. cbn [trace].
    destruct (leer_urls_desde_eventos rt (py "best") pend []
                (tr ++ [EvPrint (nl ++ py "Ingresa las URLs (una por línea). Escribe 'listo' cuando termines:") nl]))
      as (seg1 & H1 & Hs1).
    assert (Hi : uso_calidad (py "best")
                   (EvPrint (nl ++ py "Ingresa las URLs (una por línea). Escribe 'listo' cuando termines:") nl))
      by otra_linea.
    unfold menu_opcion_3, leer_urls. desplegar.
    destruct (leer_urls_desde _ _ _ _) as [[[urls|e] pend'] tr']; cbn [snd] in H1;
      subst tr'; desplegar.
    - destruct urls as [|u urls]; desplegar.
      + eexists. rewrite <- !app_assoc. split; [reflexivity|].
        apply Forall_cons_2; [exact Hi|]. apply Forall_app. split; [exact Hs1|].
        apply Forall_cons_2; [otra_linea | constructor].
      + destruct pend' as [|l pend']; desplegar.
        * eexists. rewrite <- !app_assoc. split; [reflexivity|].
          apply Forall_cons_2; [exact Hi|]. apply Forall_app. split; [exact Hs1|].
          apply Forall_cons_2; [apply uso_calidad_pide_carpeta | constructor].
        * match goal with
          | |- context [descargar_lote rt 1 ?n ?us ?c ?w0] =>
              destruct (descargar_lote_eventos rt c n us 1 w0) as (seg2 & H2 & Hs2);
              destruct (descargar_lote rt 1 n us c w0) as [r2 [pend2 tr2 f2 imp2]]
          end.
          cbn [snd trace] in H2. subst tr2. eexists. rewrite <- !app_assoc.
          split; [reflexivity|].
          apply Forall_cons_2; [exact Hi|]. apply Forall_app. split; [exact Hs1|].
          apply Forall_cons_2; [apply uso_calidad_pide_carpeta|].
          apply Forall_cons_2; [otra_linea | exact Hs2].
    - eexists. rewrite <- !app_assoc. split; [reflexivity|].
      apply Forall_cons_2; [exact Hi | exact Hs1]. }
  destruct H as (seg & Htr & Hs). exists seg. split; [exact Htr|].
  rewrite Forall_forall in Hs. intros ev Hev. specialize (Hs ev Hev).
  destruct ev as [t e|t| |o u d|].
  + intros Ht. rewrite <- linea_calidad_best. exact (Hs Ht).
  + rewrite <- pregunta_calidad_eq. exact Hs.
  + exact I.
  + destruct Hs as (Hd & Hf & Hc). rewrite formato_de_best in Hf. by repeat split.
  + exact I.
Qed.

(** On an input that holds the lines of the batch, the sentinel and the
    answer to the destination prompt. *)
Lemma lote_calidad_viva (rt : runtime) (w : world) :
  ∀ (lineas : list str) (fin l_carpeta : str) (resto : list str),
      stdin w = lineas ++ fin :: l_carpeta :: resto →
      Forall (λ l, str_lower rt (strip l) ≠ py "listo") lineas →
      str_lower rt (strip fin) = py "listo" →
      let carpeta := or_else (strip l_carpeta) (py "descargas_twitter") in
      let urls := filter (λ u, es_url_valida rt u = true) (map strip lineas) in
      ∃ seg,
        trace (menu_opcion_3 rt w).2 = trace w ++ seg
        ∧ filter (λ ev, es_calidad ev = true) seg `prefix_of` calidad_lote carpeta urls
        ∧ ((menu_opcion_3 rt w).1 = Ok tt →
           filter (λ ev, es_calidad ev = true) seg = calidad_lote carpeta urls)
        ∧ ∀ fs1,
            yt_dlp_importable w = true →
            solo_Exception rt →
            Path_mkdir_parents (Path carpeta).1 (Path carpeta).2 true (fs w) = Ok fs1 →
            (menu_opcion_3 rt w).1 = Ok tt.
Proof.
  intros lineas fin l_carpeta resto Hin Hno Hfin. cbv zeta.
  destruct w as [pend tr f imp]. cbn [stdin trace fs yt_dlp_importable] in *.
  subst pend.
  rewrite (menu_opcion_3_eq rt lineas fin l_carpeta resto tr f imp Hno Hfin).
  cbv zeta.
  assert (Hcab : ∀ cola,
            filter (λ ev, es_calidad ev = true)
              ([EvPrint (nl ++ py "Ingresa las URLs (una por línea). Escribe 'listo' cuando termines:") nl]
                 ++ flat_map (eventos_linea rt) lineas ++ [EvPrompt (py "> ")] ++ cola)
            = filter (λ ev, es_calidad ev = true) cola).
  { intros cola.
    by rewrite !filter_app, eventos_linea_sin_calidad, rotulo_lote_sin_calidad,
         pide_url_sin_calidad. }
  destruct (filter (λ u, es_url_valida rt u = true) (map strip lineas)) as [|u us].
  + eexists. cbn [fst snd trace]. rewrite <- !app_assoc. split; [reflexivity|].
    rewrite Hcab. split; [done|]. split; [done|done].
  + match goal with
    | |- context [descargar_lote rt 1 ?n ?us0 ?c ?w0] =>
        destruct (descargar_lote_calidad rt c n us0 1 w0) as (seg & Htr & Hp & Hs);
        pose proof (λ fs1 Hrt Hi Hmk,
                     descargar_lote_hitos rt c n fs1 us0 1 w0 Hrt Hi Hmk) as Hlive;
        destruct (descargar_lote rt 1 n us0 c w0) as [r w'] eqn:Erun
    end.
    cbn [fst snd trace fs yt_dlp_importable] in *.
    exists ([EvPrint (nl ++ py "Ingresa las URLs (una por línea). Escribe 'listo' cuando termines:") nl]
              ++ flat_map (eventos_linea rt) lineas ++ [EvPrompt (py "> ")]
              ++ [ EvPrompt (py "Carpeta destino (Enter = 'descargas_twitter'): ");
                   EvPrint (nl ++ py "Descargando " ++ str_of_nat (length (u :: us))
                              ++ py " videos..." ++ nl) nl ] ++ seg).
    split; [rewrite Htr; by rewrite <- !app_assoc|].
    rewrite Hcab, filter_app, pide_carpeta_sin_calidad. cbn [app].
    split; [exact Hp|]. split; [exact Hs|].
    intros fs1 Himp Hrt Hmk.
    destruct (Hlive fs1 Hrt Himp Hmk) as (seg' & w'' & [= -> _] & _). reflexivity.
Qed.

(** C9. The batch flow never asks for a quality and never forwards one: its
    downloads run with the default, "best". First, whatever the state of
    the session, in everything the batch flow leaves in the trace each
    extraction is a download whose options are those [descargar_video]
    builds for "best" (format "best"), each quality line of a download
    header reads "best", and no prompt is the prompt for a quality. Second,
    when the input holds the lines of the batch, the sentinel and the
    answer to the destination prompt, the quality lines and the downloads of
    the flow are, URL after URL in the order collected, the header line
    reading "best" and the download with the options for "best": for every
    collected URL when the flow returns, and up to the download that raised
    otherwise; and the flow does return when [yt_dlp] is imported, the
    destination can be created and the library raises nothing outside
    [Exception]. *)
Theorem lote_calidad_best (rt : runtime) (w : world) :
  (∃ seg,
     trace (menu_opcion_3 rt w).2 = trace w ++ seg
     ∧ ∀ ev, ev ∈ seg →
         match ev with
         | EvExtract o _ d =>
             d = true ∧ o !! py "format" = Some (OStr (py "best"))
             ∧ ∃ carpeta, o = opciones_descarga carpeta (py "best")
         | EvPrint t _ =>
             empieza_por (py "   Calidad: ") t = true → t = py "   Calidad: best" ++ nl
         | EvPrompt t => t ≠ py "Elige calidad (Enter = mejor): "
         | _ => True
         end)
  ∧ ∀ (lineas : list str) (fin l_carpeta : str) (resto : list str),
      stdin w = lineas ++ fin :: l_carpeta :: resto →
      Forall (λ l, str_lower rt (strip l) ≠ py "listo") lineas →
      str_lower rt (strip fin) = py "listo" →
      let carpeta := or_else (strip l_carpeta) (py "descargas_twitter") in
      let urls := filter (λ u, es_url_valida rt u = true) (map strip lineas) in
      ∃ seg,
        trace (menu_opcion_3 rt w).2 = trace w ++ seg
        ∧ filter (λ ev, es_calidad ev = true) seg `prefix_of` calidad_lote carpeta urls
        ∧ ((menu_opcion_3 rt w).1 = Ok tt →
           filter (λ ev, es_calidad ev = true) seg = calidad_lote carpeta urls)
        ∧ ∀ fs1,
            yt_dlp_importable w = true →
            solo_Exception rt →
            Path_mkdir_parents (Path carpeta).1 (Path carpeta).2 true (fs w) = Ok fs1 →
            (menu_opcion_3 rt w).1 = Ok tt.
Proof. split; [apply lote_calidad_segura | apply lote_calidad_viva]. Qed.

Lemma lote_calidad_best_witness :
  ∃ seg,
    trace (menu_opcion_3 rt_ok
             (mundo [ py "no es una url"; py "https://x.com/a/status/1";
                      py "  https://twitter.com/b/status/22 "; py "LISTO"; py "" ])).2
    = [] ++ seg
    ∧ filter (λ ev, es_calidad ev = true) seg
      = [ EvPrint (py "   Calidad: best" ++ nl) nl;
          EvExtract (opciones_descarga (py "descargas_twitter") (py "best"))
            (py "https://x.com/a/status/1") true;
          EvPrint (py "   Calidad: best" ++ nl) nl;
          EvExtract (opciones_descarga (py "descargas_twitter") (py "best"))
            (py "https://twitter.com/b/status/22") true ].
Proof.
  destruct (proj2 (lote_calidad_best rt_ok
              (mundo [ py "no es una url"; py "https://x.com/a/status/1";
                       py "  https://twitter.com/b/status/22 "; py "LISTO"; py "" ]))
              [ py "no es una url"; py "https://x.com/a/status/1";
                py "  https://twitter.com/b/status/22 " ]
              (py "LISTO") (py "") [])
    as (seg & Htr & _ & Hok & Hlive).
  - reflexivity.
  - repeat constructor; vm_compute; discriminate.
  - vm_compute; reflexivity.
  - exists seg. split; [exact Htr|].
    apply Hok,
      (Hlive {[ (false, [py "descargas_twitter"]) := Dir ]} eq_refl solo_Exception_rt_ok).
    reflexivity.
Defined.

(** ** The menu loop *)








Lemma leer_urls_desde_fin (rt : runtime) (pend urls : list str) (tr : list event) :
  (length (leer_urls_desde rt pend urls tr).1.2 ≤ length pend)%nat
  ∧ ∀ e, (leer_urls_desde rt pend urls tr).1.1 = Raise e →
         exc_cls e = EOFError ∧ (leer_urls_desde rt pend urls tr).1.2 = [].
Proof.
  revert urls tr. induction pend as [|l pend IH]; intros urls tr; cbn [leer_urls_desde].
  - split; [done|]. by intros e [= <-].
  - cbv zeta. destruct (bool_decide _); [cbn; split; [lia|done]|].
    destruct (es_url_valida _ _); [|destruct (truthy _)];
      match goal with
      | |- context [leer_urls_desde rt pend ?u ?t] =>
          destruct (IH u t) as [H1 H2]; split; [cbn [length]; lia | done]
      end.
Qed.






(** One turn of the menu: the menu and the prompt are written, a line is
    read, and the branch of the option runs on what is left of the input. *)
Lemma menu_paso_eq (rt : runtime) (w : world) :
  menu_paso rt w =
    match stdin w with
    | [] =>
        (Raise (mkExc EOFError (py "EOF when reading a line")),
         mkWorld [] (trace w ++ menu_rotulo) (fs w) (yt_dlp_importable w))
    | linea :: pend =>
        menu_despacho rt (strip linea)
          (mkWorld pend (trace w ++ menu_rotulo) (fs w) (yt_dlp_importable w))
    end.
Proof.
  destruct w as [pend tr f imp]. cbn [stdin trace fs yt_dlp_importable].
  destruct pend as [|linea pend]; unfold menu_paso, menu_despacho, menu_rotulo;
    desplegar; ordenar; reflexivity.
Qed.




Lemma menu_cabecera_eq (w : world) :
  ∃ w', menu_cabecera w = (Ok tt, w')
      ∧ stdin w' = stdin w ∧ fs w' = fs w
      ∧ yt_dlp_importable w' = yt_dlp_importable w.
Proof. destruct w as [pend tr f imp]. eexists. unfold menu_cabecera. desplegar. by repeat split. Qed.





(** ** The loop never runs out of turns *)

Lemma no_crece_ret {A} (a : A) : no_crece (mret a).
Proof. intros w. reflexivity. Qed.

Lemma no_crece_bind {A B} (m : M A) (k : A → M B) :
  no_crece m → (∀ a, no_crece (k a)) → no_crece (m ≫= k).
Proof.
  intros Hm Hk w. specialize (Hm w). unfold mbind, M_bind, bind.
  destruct (m w) as [[a|e] w1]; cbn [snd] in *; [|exact Hm].
  specialize (Hk a w1). lia.
Qed.

Lemma no_crece_print (t : str) : no_crece (print t).
Proof. intros w. reflexivity. Qed.

Lemma no_crece_print_end (t e : str) : no_crece (print_end t e).
Proof. intros w. reflexivity. Qed.

Lemma no_crece_input (prompt : str) : no_crece (input prompt).
Proof.
  intros w. unfold input. destruct (stdin w) as [|l rest] eqn:E; cbn [snd emit stdin].
  - rewrite E. reflexivity.
  - cbn [length]. lia.
Qed.

Lemma no_crece_descargar_video (rt : runtime) (url carpeta calidad : str) :
  no_crece (descargar_video rt url carpeta calidad).
Proof.
  intros w. rewrite descargar_video_eq. destruct (yt_dlp_importable w); [|reflexivity].
  destruct (Path_mkdir_parents _ _ _ _); [|reflexivity]. cbv zeta.
  destruct (ydl_descarga _ _ _ _) as [[nombre|e] evs]; [reflexivity|].
  destruct (diagnostico_descarga e); reflexivity.
Qed.

Lemma no_crece_obtener_info (rt : runtime) (url : str) : no_crece (obtener_info rt url).
Proof.
  intros w. rewrite obtener_info_eq. destruct (yt_dlp_importable w); [|reflexivity].
  cbv zeta. destruct (ydl_extract_info _ _ _ _ _) as [info|e]; [reflexivity|].
  destruct (is_Exception _); reflexivity.
Qed.

Lemma no_crece_leer_urls (rt : runtime) (urls : list str) : no_crece (leer_urls rt urls).
Proof.
  intros w. unfold leer_urls.
  destruct (leer_urls_desde_fin rt (stdin w) urls (trace w)) as [H _].
  destruct (leer_urls_desde rt (stdin w) urls (trace w)) as [[r pend] tr]. exact H.
Qed.

Lemma no_crece_descargar_lote (rt : runtime) (i total : nat) (urls : list str)
    (carpeta : str) :
  no_crece (descargar_lote rt i total urls carpeta).
Proof.
  revert i. induction urls as [|u urls IH]; intros i; cbn [descargar_lote].
  - apply no_crece_ret.
  - apply no_crece_bind; [apply no_crece_print_end|]. intros _.
    apply no_crece_bind; [apply no_crece_descargar_video|]. intros _. apply IH.
Qed.

Lemma no_crece_menu_despacho (rt : runtime) (opcion : str) :
  no_crece (menu_despacho rt opcion).
Proof.
  unfold menu_despacho, menu_opcion_1, menu_opcion_2, menu_opcion_3.
  repeat case_bool_decide;
    repeat first
      [ apply no_crece_ret | apply no_crece_print | apply no_crece_input
      | apply no_crece_descargar_video | apply no_crece_obtener_info
      | apply no_crece_leer_urls | apply no_crece_descargar_lote
      | apply no_crece_bind; [|intros ?]
      | match goal with
        | |- no_crece (if ?c then _ else _) => destruct c
        | |- no_crece (match ?l with [] => _ | _ :: _ => _ end) => destruct l
        | |- no_crece (let _ := _ in _) => cbv zeta
        end ].
Qed.

(** One turn of the menu that asks for another has read a line. *)
Lemma menu_paso_lee (rt : runtime) (w w' : world) (b : bool) :
  menu_paso rt w = (Ok b, w') → (length (stdin w') < length (stdin w))%nat.
Proof.
  rewrite menu_paso_eq. destruct (stdin w) as [|l pend]; [discriminate|].
  intros H.
  pose proof (no_crece_menu_despacho rt (strip l)
                (mkWorld pend (trace w ++ menu_rotulo) (fs w) (yt_dlp_importable w))) as Hn.
  rewrite H in Hn. cbn [snd stdin length] in *. lia.
Qed.

Lemma menu_bucle_total (rt : runtime) (n : nat) (w : world) :
  (length (stdin w) < n)%nat → is_Some (menu_bucle rt n w).
Proof.
  revert w. induction n as [|n IH]; intros w Hn; [lia|]. cbn [menu_bucle].
  destruct (menu_paso rt w) as [[[|]|e] w1] eqn:E; [|done..].
  apply IH. apply menu_paso_lee in E. lia.
Qed.

(** Whatever the input, the library and the file system, the menu and the
    program come to an end: the turns given to the loop are enough. *)
Lemma menu_interactivo_total (rt : runtime) (w : world) :
  is_Some (menu_interactivo rt w).
Proof.
  unfold menu_interactivo. destruct (menu_cabecera_eq w) as (w0 & -> & _).
  apply menu_bucle_total. lia.
Qed.

Lemma main_total (rt : runtime) (argv : list str) (w : world) :
  is_Some (main rt argv w).
Proof.
  unfold main. destruct (instalar_ytdlp rt w) as [[b|e] w1]; [|done].
  destruct argv as [|prog [|url resto]]; try apply menu_interactivo_total.
  by destruct (es_url_valida rt url).
Qed.

(** * Further properties of the program *)

(** ** The shape of a valid URL *)

Lemma lang_Lit (s w : str) : lang (Lit s) w ↔ w = s.
Proof.
  revert w. induction s as [|c s IH]; intros w; cbn [Lit].
  - apply lang_eps_inv.
  - rewrite lang_seq_inv. unfold Chr. setoid_rewrite lang_sym_inv. setoid_rewrite IH.
    split.
    + intros (s1 & s2 & -> & (c' & -> & Hc) & ->). apply N.eqb_eq in Hc. by subst c'.
    + intros ->. exists [c], s. split; [done|]. split; [|done].
      exists c. split; [done|]. apply N.eqb_refl.
Qed.

Lemma lang_star_sym (p : N → bool) (w : str) :
  lang (Star (Sym p)) w ↔ Forall (λ c, p c = true) w.
Proof.
  split.
  - intros H. remember (Star (Sym p)) as r eqn:Er.
    induction H as [| | | | | |r0 s1 s2 H1 _ H2 IH2]; try discriminate.
    + constructor.
    + injection Er as ->. apply lang_sym_inv in H1 as (c & -> & Hc).
      constructor; [done | by apply IH2].
  - induction 1 as [|c w Hc _ IH]; [constructor|].
    change (c :: w) with ([c] ++ w). constructor; [by constructor | done].
Qed.

Lemma lang_plus_sym (p : N → bool) (w : str) :
  lang (Plus (Sym p)) w ↔ w ≠ [] ∧ Forall (λ c, p c = true) w.
Proof.
  unfold Plus. rewrite lang_seq_inv. setoid_rewrite lang_sym_inv.
  setoid_rewrite lang_star_sym. split.
  - intros (s1 & s2 & -> & (c & -> & Hc) & Hs). split; [done | by constructor].
  - intros [Hne Hall]. destruct w as [|c w]; [done|].
    apply Forall_cons in Hall as [Hc Hw]. exists [c], w. eauto.
Qed.

Lemma lang_opt (r : regex) (w : str) : lang (Opt r) w ↔ lang r w ∨ w = [].
Proof. unfold Opt. by rewrite lang_alt_inv, lang_eps_inv. Qed.

Lemma lang_Chr (c : N) (w : str) : lang (Chr c) w ↔ w = [c].
Proof.
  unfold Chr. rewrite lang_sym_inv. split.
  - intros (c' & -> & Hc). apply N.eqb_eq in Hc. by subst c'.
  - intros ->. exists c. split; [done | apply N.eqb_refl].
Qed.

Lemma lang_esquema (a : str) :
  lang (Opt (Chr 115)) a ↔ py "http" ++ a = py "http" ∨ py "http" ++ a = py "https".
Proof.
  rewrite lang_opt, lang_Chr. split.
  - intros [->| ->]; [right | left]; vm_compute; reflexivity.
  - intros [H|H]; apply (f_equal (drop 4)) in H; vm_compute in H; subst a; auto.
Qed.

Lemma lang_www (a : str) :
  lang (Opt (Seq (Lit (py "www")) (Chr 46))) a ↔ a = [] ∨ a = py "www.".
Proof.
  rewrite lang_opt, lang_seq_inv. setoid_rewrite lang_Lit. setoid_rewrite lang_Chr.
  split.
  - intros [(s1 & s2 & -> & -> & ->)| ->]; [right | left]; vm_compute; reflexivity.
  - intros [->| ->]; [by right | left].
    exists (py "www"), [46]. split; [vm_compute; reflexivity | done].
Qed.

Lemma lang_host (a : str) :
  lang (Alt (Seq (Lit (py "twitter")) (Seq (Chr 46) (Lit (py "com"))))
            (Seq (Chr 120) (Seq (Chr 46) (Lit (py "com"))))) a
  ↔ a = py "twitter.com" ∨ a = py "x.com".
Proof.
  rewrite lang_alt_inv. split.
  - intros [H|H]; apply lang_seq_inv in H as (s1 & s2 & -> & H1 & H2);
      apply lang_seq_inv in H2 as (s3 & s4 & -> & H3 & H4);
      apply lang_Chr in H3 as ->; apply lang_Lit in H4 as ->.
    + apply lang_Lit in H1 as ->. left. vm_compute; reflexivity.
    + apply lang_Chr in H1 as ->. right. vm_compute; reflexivity.
  - intros [->| ->]; [left | right].
    + replace (py "twitter.com") with (py "twitter" ++ [46] ++ py "com")
        by (vm_compute; reflexivity).
      constructor; [by apply lang_Lit|]. constructor; [by apply lang_Chr | by apply lang_Lit].
    + replace (py "x.com") with ([120] ++ [46] ++ py "com") by (vm_compute; reflexivity).
      constructor; [by apply lang_Chr|]. constructor; [by apply lang_Chr | by apply lang_Lit].
Qed.

(** The words of the pattern, part by part. *)
Lemma lang_patron (rt : runtime) (w : str) :
  lang (patron rt) w ↔
  ∃ esquema www host ruta digitos,
    w = esquema ++ py "://" ++ www ++ host ++ py "/" ++ ruta ++ py "/status/" ++ digitos
    ∧ (esquema = py "http" ∨ esquema = py "https")
    ∧ (www = [] ∨ www = py "www.")
    ∧ (host = py "twitter.com" ∨ host = py "x.com")
    ∧ (ruta ≠ [] ∧ Forall (λ c, dot c = true) ruta)
    ∧ (digitos ≠ [] ∧ Forall (λ c, unicode_decimal rt c = true) digitos).
Proof.
  unfold patron. split.
  - intros H.
    apply lang_seq_inv in H as (a1 & r1 & -> & H1 & H). apply lang_Lit in H1 as ->.
    apply lang_seq_inv in H as (a2 & r2 & -> & H2 & H). apply lang_esquema in H2.
    apply lang_seq_inv in H as (a3 & r3 & -> & H3 & H). apply lang_Lit in H3 as ->.
    apply lang_seq_inv in H as (a4 & r4 & -> & H4 & H). apply lang_www in H4.
    apply lang_seq_inv in H as (a5 & r5 & -> & H5 & H). apply lang_host in H5.
    apply lang_seq_inv in H as (a6 & r6 & -> & H6 & H). apply lang_Chr in H6 as ->.
    apply lang_seq_inv in H as (a7 & r7 & -> & H7 & H). apply lang_plus_sym in H7.
    apply lang_seq_inv in H as (a8 & r8 & -> & H8 & H). apply lang_Lit in H8 as ->.
    apply lang_plus_sym in H.
    exists (py "http" ++ a2), a4, a5, a7, r8. rewrite <- !app_assoc.
    change (py "/") with [47]. done.
  - intros (esquema & www & host & ruta & digitos & -> & He & Hw & Hh & Hr & Hd).
    assert (Ha : ∃ a, esquema = py "http" ++ a ∧ lang (Opt (Chr 115)) a).
    { destruct He as [->| ->]; [exists [] | exists [115]];
        (split; [vm_compute; reflexivity | apply lang_esquema]);
        [left | right]; vm_compute; reflexivity. }
    destruct Ha as (a & -> & Ha). rewrite <- !app_assoc. change (py "/") with [47].
    constructor; [by apply lang_Lit|]. constructor; [done|].
    constructor; [by apply lang_Lit|]. constructor; [by apply lang_www|].
    constructor; [by apply lang_host|].
    constructor; [by apply lang_Chr|]. constructor; [by apply lang_plus_sym|].
    constructor; [by apply lang_Lit | by apply lang_plus_sym].
Qed.

(** A string passes the validation exactly when it reads: "http" or
    "https", "://", an optional "www.", "twitter.com" or "x.com", "/", a
    path of one or more characters with no newline, "/status/", and one or
    more decimal digits; anything may follow. *)
Theorem es_url_valida_forma (rt : runtime) (s : str) :
  es_url_valida rt s = true ↔
  ∃ esquema www host ruta digitos resto,
    s = esquema ++ py "://" ++ www ++ host ++ py "/" ++ ruta ++ py "/status/"
          ++ digitos ++ resto
    ∧ (esquema = py "http" ∨ esquema = py "https")
    ∧ (www = [] ∨ www = py "www.")
    ∧ (host = py "twitter.com" ∨ host = py "x.com")
    ∧ (ruta ≠ [] ∧ Forall (λ c, c ≠ 10) ruta)
    ∧ (digitos ≠ [] ∧ Forall (λ c, unicode_decimal rt c = true) digitos).
Proof.
  unfold es_url_valida. rewrite re_match_prefix.
  assert (Hdot : ∀ l : str, Forall (λ c, dot c = true) l ↔ Forall (λ c, c ≠ 10) l).
  { intros l. apply Forall_proper; [|done]. intros c. unfold dot.
    rewrite negb_true_iff. apply N.eqb_neq. }
  split.
  - intros (p & t & -> & Hp). apply lang_patron in Hp
      as (esquema & www & host & ruta & digitos & -> & He & Hw & Hh & [Hr1 Hr2] & Hd).
    exists esquema, www, host, ruta, digitos, t. rewrite <- !app_assoc.
    split; [done|]. by rewrite <- Hdot.
  - intros (esquema & www & host & ruta & digitos & resto & -> & He & Hw & Hh & [Hr1 Hr2] & Hd).
    exists (esquema ++ py "://" ++ www ++ host ++ py "/" ++ ruta ++ py "/status/" ++ digitos),
      resto.
    split; [by rewrite <- !app_assoc|]. apply lang_patron.
    exists esquema, www, host, ruta, digitos. by rewrite Hdot.
Qed.

(** The validation asks nothing of what follows the digits: a valid URL
    stays valid whatever is appended to it. *)
Theorem es_url_valida_sufijo (rt : runtime) (s t : str) :
  es_url_valida rt s = true → es_url_valida rt (s ++ t) = true.
Proof.
  unfold es_url_valida. rewrite !re_match_prefix.
  intros (p & u & -> & Hp). exists p, (u ++ t). by rewrite <- app_assoc.
Qed.

Lemma es_url_valida_sufijo_witness :
  es_url_valida rt_ok (url_demo ++ py "?s=20 y algo más") = true.
Proof. apply (es_url_valida_sufijo rt_ok url_demo). vm_compute; reflexivity. Defined.

(** A string that passes the validation starts with "http". *)
Lemma url_empieza_http (rt : runtime) (s : str) :
  es_url_valida rt s = true → ∃ t, s = py "http" ++ t.
Proof.
  unfold es_url_valida. rewrite re_match_prefix. intros (p & u & -> & Hp).
  apply lang_patron in Hp
    as (esquema & www & host & ruta & digitos & -> & [->| ->] & _).
  - eexists. by rewrite <- !app_assoc.
  - eexists. replace (py "https") with (py "http" ++ [115]) by (vm_compute; reflexivity).
    by rewrite <- !app_assoc.
Qed.

(** ** The start-up check and the entry point *)

(** The start-up check returns [True] or fails, never [False]: with the
    module there it does nothing at all; without it, it announces the
    installation and runs the package manager once, whose failure it lets
    through, the module staying missing, and whose success it confirms
    without trying the import again: whether the module can be imported from
    then on is what the surroundings make of the installation. *)
Theorem instalar_ytdlp_resultados (rt : runtime) (w : world) :
  (∀ b w', instalar_ytdlp rt w = (Ok b, w') → b = true)
  ∧ (yt_dlp_importable w = true → instalar_ytdlp rt w = (Ok true, w))
  ∧ (yt_dlp_importable w = false →
       ∀ e, pip_install rt (trace w ++ [EvPrint (py "Instalando yt-dlp...") nl]) = Raise e →
            instalar_ytdlp rt w
            = (Raise e,
               mkWorld (stdin w)
                 (trace w ++ [EvPrint (py "Instalando yt-dlp...") nl; EvPip])
                 (fs w) false))
  ∧ (yt_dlp_importable w = false →
       ∀ u, pip_install rt (trace w ++ [EvPrint (py "Instalando yt-dlp...") nl]) = Ok u →
            instalar_ytdlp rt w
            = (Ok true,
               mkWorld (stdin w)
                 (trace w ++ [ EvPrint (py "Instalando yt-dlp...") nl; EvPip;
                               EvPrint (py "yt-dlp instalado correctamente." ++ nl) nl ])
                 (fs w)
                 (pip_deja_importable rt
                    (trace w ++ [EvPrint (py "Instalando yt-dlp...") nl])))).
Proof.
  rewrite instalar_ytdlp_eq. split; [|split; [|split]].
  - intros b w'. destruct (yt_dlp_importable w) eqn:Himp.
    + by intros [= <- <-].
    + cbv zeta. destruct (pip_install rt _); [|discriminate].
      by intros [= <- <-].
  - by intros ->.
  - intros -> e He. cbv zeta. rewrite He. by rewrite <- app_assoc.
  - intros -> u Hu. cbv zeta. rewrite Hu. by rewrite <- app_assoc.
Qed.

(** When the module is missing and the installation fails, the program ends
    with the error of the package manager whatever its arguments: nothing is
    read from the input, the library is never called and the file system is
    left as it was. *)
Theorem main_arranque_fallido (rt : runtime) (argv : list str) (w : world) (e : exc) :
  yt_dlp_importable w = false →
  pip_install rt (trace w ++ [EvPrint (py "Instalando yt-dlp...") nl]) = Raise e →
  main rt argv w
  = Some (Raise e,
          mkWorld (stdin w)
            (trace w ++ [EvPrint (py "Instalando yt-dlp...") nl; EvPip])
            (fs w) false).
Proof.
  intros Himp He. unfold main. rewrite instalar_ytdlp_eq, Himp. cbv zeta.
  rewrite He. by rewrite <- app_assoc.
Qed.

Lemma main_arranque_fallido_witness :
  main rt_sin_red [py "twitter_downloader.py"; url_demo] (mundo_sin_modulo [py "0"])
  = Some (Raise (mkExc CalledProcessError (py "returned non-zero exit status 1")),
          mkWorld [py "0"] [EvPrint (py "Instalando yt-dlp...") nl; EvPip] ∅ false).
Proof.
  exact (main_arranque_fallido rt_sin_red [py "twitter_downloader.py"; url_demo]
           (mundo_sin_modulo [py "0"]) _ eq_refl eq_refl).
Defined.

(** The URL given on the command line is validated as it is, not stripped:
    when it starts with a white-space character it is rejected, and the
    program calls the library not at all and reads no input. *)
Theorem main_argumento_en_blanco (rt : runtime) (prog : str) (c : N) (u : str)
    (resto : list str) (w : world) :
  is_space c = true →
  es_url_valida rt (c :: u) = false
  ∧ ∃ r w',
      main rt (prog :: (c :: u) :: resto) w = Some (r, w')
      ∧ filter (λ ev, es_llamada ev = true) (trace w')
        = filter (λ ev, es_llamada ev = true) (trace w)
      ∧ stdin w' = stdin w
      ∧ fs w' = fs w.
Proof.
  intros Hc.
  assert (Hval : es_url_valida rt (c :: u) = false).
  { destruct (es_url_valida rt (c :: u)) eqn:E; [|done].
    apply url_empieza_http in E as [t E]. vm_compute in E. injection E as -> _.
    vm_compute in Hc. discriminate. }
  split; [exact Hval|]. unfold main.
  pose proof (instalar_ytdlp_sin_llamadas rt w) as (Hll & Hin & Hfs).
  destruct (instalar_ytdlp rt w) as [[b|e] w1]; cbn [fst snd] in *.
  - rewrite Hval. unfold print, print_end. eexists _, _. split; [reflexivity|].
    unfold emit. cbn [trace stdin fs]. rewrite filter_app, Hll, Hin, Hfs.
    split; [by rewrite app_nil_r|]. by split.
  - eexists _, _. split; [reflexivity|]. by split; [|split].
Qed.

Lemma main_argumento_en_blanco_witness :
  es_url_valida rt_ok (32 :: url_demo) = false.
Proof.
  exact (proj1 (main_argumento_en_blanco rt_ok (py "twitter_downloader.py") 32 url_demo
                  [] (mundo []) eq_refl)).
Defined.

(** With a valid URL, the destination and the quality given on the command
    line go to the download as they are (an empty destination is not
    replaced, a quality is not looked up in the menu's table), a missing
    quality is "best", and arguments after the third are ignored. *)
Theorem main_argumentos (rt : runtime) (prog url carpeta calidad : str)
    (extra : list str) (w : world) :
  es_url_valida rt url = true →
  main rt (prog :: url :: carpeta :: calidad :: extra) w
  = Some ((instalar_ytdlp rt;; descargar_video rt url carpeta calidad;; mret tt) w)
  ∧ main rt [prog; url; carpeta] w
    = Some ((instalar_ytdlp rt;; descargar_video rt url carpeta (py "best");; mret tt) w)
  ∧ ∀ fs1,
      yt_dlp_importable w = true →
      Path_mkdir_parents (Path carpeta).1 (Path carpeta).2 true (fs w) = Ok fs1 →
      ∃ r w' cola,
        main rt (prog :: url :: carpeta :: calidad :: extra) w = Some (r, w')
        ∧ trace w'
          = trace w ++ cabecera_descarga rt url carpeta calidad
              ++ EvExtract (opciones_descarga carpeta calidad) url true :: cola
        ∧ fs w' = fs1.
Proof.
  intros Hval.
  assert (Heq : ∀ c q resto',
    default (py "descargas_twitter") (resto' !! 0%nat) = c →
    default (py "best") (resto' !! 1%nat) = q →
    main rt (prog :: url :: resto') w
    = Some ((instalar_ytdlp rt;; descargar_video rt url c q;; mret tt) w)).
  { intros c q resto' Hc Hq. unfold main, mbind, M_bind, bind, mret, M_ret, ret.
    destruct (instalar_ytdlp rt w) as [[b|e] w1]; [|reflexivity].
    rewrite Hc, Hq, Hval. by destruct (descargar_video rt url c q w1) as [[r|e] w2]. }
  split; [by apply Heq|]. split; [by apply Heq|].
  intros fs1 Himp Hmk. rewrite (Heq carpeta calidad) by reflexivity.
  unfold mbind, M_bind, bind, mret, M_ret, ret. rewrite instalar_ytdlp_eq, Himp.
  destruct (descargar_video_llega rt url carpeta calidad w fs1 Himp Hmk) as (r & cola & ->).
  destruct r as [v|e]; eexists _, _, cola; by split; [|split].
Qed.

Lemma main_argumentos_witness :
  main rt_ok [py "twitter_downloader.py"; url_demo; py "videos"; py "480"; py "de más"]
    (mundo [])
  = Some ((instalar_ytdlp rt_ok;; descargar_video rt_ok url_demo (py "videos") (py "480");;
           mret tt) (mundo [])).
Proof.
  exact (proj1 (main_argumentos rt_ok (py "twitter_downloader.py") url_demo (py "videos")
                  (py "480") [py "de más"] (mundo []) eq_refl)).
Defined.

(** ** What a download does before the [try] block *)

Lemma Path_mkdir_parents_fichero (a : bool) (rp : list str) (fs : gmap path node) :
  fs_lookup fs (a, rp) = Some File →
  Path_mkdir_parents a rp true fs
  = Raise (mkExc FileExistsError (py "[Errno 17] File exists")).
Proof.
  intros E. destruct rp as [|c rp]; [discriminate|].
  cbn [Path_mkdir_parents]. rewrite (os_mkdir_exists _ _ _ E).
  cbn [exc_cls is_FileNotFoundError]. unfold Path_is_dir. by rewrite E.
Qed.

(** What stands before the [try] is not caught, and fails before anything
    is printed: without the module the download raises [ImportError] and
    creates no directory; with a destination that is a regular file it
    raises [FileExistsError]; and whenever the creation of the directory
    raises, the exception leaves the operation with the world as it was:
    nothing printed, the library not called. *)
Theorem descargar_video_antes_del_try (rt : runtime) (url carpeta calidad : str)
    (w : world) :
  (yt_dlp_importable w = false →
     descargar_video rt url carpeta calidad w
     = (Raise (mkExc ImportError (py "No module named 'yt_dlp'")), w))
  ∧ (yt_dlp_importable w = true →
     fs_lookup (fs w) (Path carpeta) = Some File →
     descargar_video rt url carpeta calidad w
     = (Raise (mkExc FileExistsError (py "[Errno 17] File exists")), w))
  ∧ (yt_dlp_importable w = true →
     ∀ e, Path_mkdir_parents (Path carpeta).1 (Path carpeta).2 true (fs w) = Raise e →
          descargar_video rt url carpeta calidad w = (Raise e, w)).
Proof.
  rewrite descargar_video_eq. split; [|split].
  - by intros ->.
  - intros -> E. destruct (Path carpeta) as [a rp]. cbn [fst snd].
    by rewrite (Path_mkdir_parents_fichero a rp (fs w) E).
  - intros -> e He. by rewrite He.
Qed.

(** ** One attempt *)

Lemma cabecera_sin_llamadas (rt : runtime) (url carpeta calidad : str) :
  filter (λ ev, es_llamada ev = true) (cabecera_descarga rt url carpeta calidad) = [].
Proof. reflexivity. Qed.

Lemma confirmacion_sin_llamadas (nombre : str) :
  filter (λ ev, es_llamada ev = true) (confirmacion_descarga nombre) = [].
Proof. reflexivity. Qed.

Lemma diagnostico_sin_llamadas (e : exc) (diag : list event) :
  diagnostico_descarga e = Some diag → filter (λ ev, es_llamada ev = true) diag = [].
Proof.
  unfold diagnostico_descarga.
  destruct (is_DownloadError _); [|destruct (is_Exception _); [|discriminate]];
    by intros [= <-].
Qed.

(** Whatever the library does and whatever comes of it, a download reads
    nothing from the input and makes one attempt only. It calls the library
    not at all when the import or the creation of the directory fails;
    otherwise it extracts once, the URL it was given, with [download=True]
    and the options built for its destination and quality, and, only when
    the extraction returned, resolves the file name once. It never tries
    again. *)
Theorem descargar_video_un_intento (rt : runtime) (url carpeta calidad : str)
    (w : world) :
  stdin (descargar_video rt url carpeta calidad w).2 = stdin w
  ∧ ∃ seg,
      trace (descargar_video rt url carpeta calidad w).2 = trace w ++ seg
      ∧ filter (λ ev, es_llamada ev = true) seg
        = if yt_dlp_importable w then
            match Path_mkdir_parents (Path carpeta).1 (Path carpeta).2 true (fs w) with
            | Raise _ => []
            | Ok _ =>
                let o := opciones_descarga carpeta calidad in
                match ydl_extract_info rt
                        (trace w ++ cabecera_descarga rt url carpeta calidad) o url true with
                | Ok info => [EvExtract o url true; EvPrepare o info]
                | Raise _ => [EvExtract o url true]
                end
            end
          else [].
Proof.
  rewrite descargar_video_eq.
  destruct (yt_dlp_importable w);
    [|split; [done|]; exists []; by rewrite app_nil_r].
  destruct (Path_mkdir_parents _ _ _ _) as [fs1|e];
    [|split; [done|]; exists []; by rewrite app_nil_r].
  cbv zeta. unfold ydl_descarga.
  destruct (ydl_extract_info _ _ _ _ _) as [info|e].
  - destruct (ydl_prepare_filename _ _ _ _) as [nombre|e].
    + split; [done|]. eexists. cbn [snd trace]. rewrite <- app_assoc.
      split; [reflexivity|].
      by rewrite !filter_app, cabecera_sin_llamadas, confirmacion_sin_llamadas.
    + destruct (diagnostico_descarga e) as [diag|] eqn:Hd.
      * split; [done|]. eexists. cbn [snd trace]. rewrite <- app_assoc.
        split; [reflexivity|].
        by rewrite !filter_app, cabecera_sin_llamadas, (diagnostico_sin_llamadas _ _ Hd).
      * split; [done|]. eexists. cbn [snd trace]. rewrite <- app_assoc.
        split; [reflexivity|]. by rewrite !filter_app, cabecera_sin_llamadas.
  - destruct (diagnostico_descarga e) as [diag|] eqn:Hd.
    + split; [done|]. eexists. cbn [snd trace]. rewrite <- app_assoc.
      split; [reflexivity|].
      by rewrite !filter_app, cabecera_sin_llamadas, (diagnostico_sin_llamadas _ _ Hd).
    + split; [done|]. eexists. cbn [snd trace]. rewrite <- app_assoc.
      split; [reflexivity|]. by rewrite !filter_app, cabecera_sin_llamadas.
Qed.

(** ** What the info operation leaves alone *)

Lemma ficha_info_sin_llamadas (info : info_dict) :
  filter (λ ev, es_llamada ev = true) (ficha_info info) = [].
Proof.
  unfold ficha_info, linea_calidades. rewrite filter_app.
  by case_bool_decide.
Qed.

(** The info operation creates no directory, reads no input, and calls the
    library at most once: with the module imported, by one extraction of the
    URL with [download=False] and its own quiet options; it never resolves a
    file name and never downloads. *)
Theorem obtener_info_sin_efectos (rt : runtime) (url : str) (w : world) :
  fs (obtener_info rt url w).2 = fs w
  ∧ stdin (obtener_info rt url w).2 = stdin w
  ∧ ∃ seg,
      trace (obtener_info rt url w).2 = trace w ++ seg
      ∧ filter (λ ev, es_llamada ev = true) seg
        = if yt_dlp_importable w then [EvExtract opciones_info url false] else [].
Proof.
  rewrite obtener_info_eq. destruct (yt_dlp_importable w).
  - cbv zeta. destruct (ydl_extract_info _ _ _ _ _) as [info|e].
    + split; [done|]. split; [done|]. eexists. cbn [snd trace].
      rewrite <- !app_assoc. split; [reflexivity|].
      rewrite !filter_app, ficha_info_sin_llamadas. reflexivity.
    + destruct (is_Exception _); (split; [done|]); (split; [done|]); eexists;
        cbn [snd trace]; rewrite <- !app_assoc; (split; [reflexivity|]); reflexivity.
  - split; [done|]. split; [done|]. exists []. by rewrite app_nil_r.
Qed.

(** ** The line of resolutions *)

(** The resolutions printed depend only on which non-zero heights occur
    among the formats, not on their order, on how often a height occurs, or
    on the formats that carry no height or the height 0. *)
Theorem linea_calidades_conjunto (fmts fmts' : list formato_info) :
  (∀ h, h ≠ 0%Z →
        (∃ f, f ∈ fmts ∧ height f = Some h) ↔ (∃ f, f ∈ fmts' ∧ height f = Some h)) →
  linea_calidades fmts = linea_calidades fmts'.
Proof.
  intros H. assert (E : resoluciones fmts = resoluciones fmts').
  { apply set_eq. intros h. rewrite !elem_of_resoluciones. split.
    - intros [Hn Hf]. split; [done|]. by apply H.
    - intros [Hn Hf]. split; [done|]. by apply H. }
  unfold linea_calidades. by rewrite E.
Qed.

Lemma linea_calidades_conjunto_witness :
  linea_calidades
    [mkFormato (Some 720%Z); mkFormato None; mkFormato (Some 1080%Z);
     mkFormato (Some 720%Z); mkFormato (Some 0%Z)]
  = linea_calidades [mkFormato (Some 1080%Z); mkFormato (Some 720%Z)].
Proof.
  apply linea_calidades_conjunto. intros h Hh. split.
  - intros (f & Hf & Hhf). rewrite !elem_of_cons in Hf.
    destruct Hf as [->|[->|[->|[->|[->|Hf]]]]]; cbn in Hhf; try discriminate;
      try (by apply elem_of_nil in Hf); injection Hhf as <-; try done.
    + exists (mkFormato (Some 720%Z)). split; [|done]. apply elem_of_cons. right. by left.
    + exists (mkFormato (Some 1080%Z)). split; [by left|done].
    + exists (mkFormato (Some 720%Z)). split; [|done]. apply elem_of_cons. right. by left.
  - intros (f & Hf & Hhf). exists f. split; [|done]. rewrite !elem_of_cons in Hf.
    destruct Hf as [->|[->|Hf]]; [| |by apply elem_of_nil in Hf].
    + do 2 (apply elem_of_cons; right). by left.
    + by left.
Defined.

(** ** The batch and the input *)

Lemma eventos_linea_sin_llamadas (rt : runtime) (lineas : list str) :
  filter (λ ev, es_llamada ev = true) (flat_map (eventos_linea rt) lineas) = [].
Proof.
  induction lineas as [|l lineas IH]; [reflexivity|].
  cbn [flat_map]. rewrite filter_app, IH, app_nil_r. unfold eventos_linea.
  destruct (es_url_valida _ _); [reflexivity|]. destruct (truthy _); reflexivity.
Qed.

(** The collecting loop on an input that ends before any line reads
    "listo". *)
Lemma leer_urls_desde_eof (rt : runtime) (lineas urls : list str) (tr : list event) :
  Forall (λ l, str_lower rt (strip l) ≠ py "listo") lineas →
  leer_urls_desde rt lineas urls tr
  = (Raise (mkExc EOFError (py "EOF when reading a line")), [],
     tr ++ flat_map (eventos_linea rt) lineas ++ [EvPrompt (py "> ")]).
Proof.
  intros Hno. revert urls tr.
  induction Hno as [|l lineas Hl _ IH]; intros urls tr; cbn [leer_urls_desde]; [reflexivity|].
  cbv zeta. rewrite bool_decide_eq_false_2 by done.
  cbn [flat_map]. unfold eventos_linea at 1.
  destruct (es_url_valida rt (strip l)); [|destruct (truthy (strip l))];
    rewrite IH; by rewrite <- !app_assoc.
Qed.

(** When the input ends before the sentinel, the batch ends with [EOFError]
    after reading every line: the URLs collected so far are dropped, the
    destination is never asked for, the library is never called and no
    directory is created. *)
Theorem lote_sin_centinela (rt : runtime) (w : world) :
  Forall (λ l, str_lower rt (strip l) ≠ py "listo") (stdin w) →
  ∃ w',
    menu_opcion_3 rt w = (Raise (mkExc EOFError (py "EOF when reading a line")), w')
    ∧ stdin w' = []
    ∧ fs w' = fs w
    ∧ trace w'
      = trace w
        ++ [EvPrint (nl ++ py "Ingresa las URLs (una por línea). Escribe 'listo' cuando termines:") nl]
        ++ flat_map (eventos_linea rt) (stdin w)
        ++ [EvPrompt (py "> ")]
    ∧ filter (λ ev, es_llamada ev = true) (trace w')
      = filter (λ ev, es_llamada ev = true) (trace w).
Proof.
  intros Hno. destruct w as [pend tr f imp]. cbn [stdin trace fs] in *.
  unfold menu_opcion_3, leer_urls. desplegar.
  rewrite (leer_urls_desde_eof rt pend _ _ Hno). desplegar.
  eexists. split; [reflexivity|]. cbn [stdin trace fs].
  split; [done|]. split; [done|]. rewrite <- !app_assoc. split; [reflexivity|].
  rewrite !filter_app, eventos_linea_sin_llamadas. cbn [app]. by rewrite app_nil_r.
Qed.

Lemma lote_sin_centinela_witness :
  ∃ w',
    menu_opcion_3 rt_ok (mundo [url_demo; py "otra cosa"])
    = (Raise (mkExc EOFError (py "EOF when reading a line")), w')
    ∧ stdin w' = [].
Proof.
  destruct (lote_sin_centinela rt_ok (mundo [url_demo; py "otra cosa"]))
    as (w' & H1 & H2 & _).
  - repeat constructor; vm_compute; discriminate.
  - exists w'. by split.
Defined.

Lemma descargar_lote_stdin (rt : runtime) (i total : nat) (urls : list str)
    (carpeta : str) (w : world) :
  stdin (descargar_lote rt i total urls carpeta w).2 = stdin w.
Proof.
  revert i w. induction urls as [|u urls IH]; intros i w; cbn [descargar_lote];
    [reflexivity|].
  unfold mbind, M_bind, bind, print_end.
  set (w1 := emit _ w).
  assert (H1 : stdin (descargar_video rt u carpeta (py "best") w1).2 = stdin w).
  { rewrite descargar_video_eq. destruct (yt_dlp_importable w1); [|reflexivity].
    destruct (Path_mkdir_parents _ _ _ _); [|reflexivity]. cbv zeta.
    destruct (ydl_descarga _ _ _ _) as [[nombre|e] evs]; [reflexivity|].
    destruct (diagnostico_descarga e); reflexivity. }
  destruct (descargar_video rt u carpeta (py "best") w1) as [[v|e] w2]; cbn [snd] in *.
  - by rewrite IH.
  - exact H1.
Qed.

(** The batch reads the lines up to the sentinel and, only when at least
    one of them was a valid URL, one more line for the destination: when
    none was valid the destination is not asked for, and the line that
    follows the sentinel is left on the input, for the menu to read as an
    option. The downloads themselves read nothing, however they end. *)
Theorem lote_entrada_consumida (rt : runtime) (w : world) (lineas : list str)
    (fin l_carpeta : str) (resto : list str) :
  stdin w = lineas ++ fin :: l_carpeta :: resto →
  Forall (λ l, str_lower rt (strip l) ≠ py "listo") lineas →
  str_lower rt (strip fin) = py "listo" →
  stdin (menu_opcion_3 rt w).2
  = match filter (λ u, es_url_valida rt u = true) (map strip lineas) with
    | [] => l_carpeta :: resto
    | _ :: _ => resto
    end.
Proof.
  intros Hin Hno Hfin. destruct w as [pend tr f imp]. cbn [stdin] in Hin. subst pend.
  rewrite (menu_opcion_3_eq rt lineas fin l_carpeta resto tr f imp Hno Hfin). cbv zeta.
  destruct (filter _ (map strip lineas)) as [|u us]; [reflexivity|].
  by rewrite descargar_lote_stdin.
Qed.

Lemma lote_entrada_consumida_witness :
  stdin (menu_opcion_3 rt_ok (mundo [py "no es una url"; py "listo"; py "0"; py "1"])).2
  = match filter (λ u, es_url_valida rt_ok u = true) (map strip [py "no es una url"]) with
    | [] => [py "0"; py "1"]
    | _ :: _ => [py "1"]
    end.
Proof.
  apply (lote_entrada_consumida rt_ok
           (mundo [py "no es una url"; py "listo"; py "0"; py "1"])
           [py "no es una url"] (py "listo") (py "0") [py "1"]).
  - reflexivity.
  - repeat constructor; vm_compute; discriminate.
  - vm_compute; reflexivity.
Defined.

(** ** A batch that is interrupted *)

(** An exception that does not derive from [Exception], such as the
    [KeyboardInterrupt] of Ctrl-C, raised by the library during a download
    of the batch ends the whole batch: the exception leaves the loop, and
    the URLs that follow are not attempted. *)
Theorem descargar_lote_interrumpido (rt : runtime) (i total : nat) (u : str)
    (urls : list str) (carpeta : str) (w : world) (fs1 : gmap path node)
    (e : exc) (evs : list event) :
  yt_dlp_importable w = true →
  Path_mkdir_parents (Path carpeta).1 (Path carpeta).2 true (fs w) = Ok fs1 →
  ydl_descarga rt
    (trace w ++ marcador i total :: cabecera_descarga rt u carpeta (py "best"))
    (opciones_descarga carpeta (py "best")) u = (Raise e, evs) →
  is_Exception (exc_cls e) = false →
  descargar_lote rt i total (u :: urls) carpeta w
  = (Raise e,
     mkWorld (stdin w)
       (trace w ++ marcador i total :: cabecera_descarga rt u carpeta (py "best") ++ evs)
       fs1 true)
  ∧ filter (λ ev, es_hito ev = true)
      (marcador i total :: cabecera_descarga rt u carpeta (py "best") ++ evs)
    = [marcador i total; EvExtract (opciones_descarga carpeta (py "best")) u true].
Proof.
  intros Himp Hmk Hy He.
  assert (Hd : diagnostico_descarga e = None).
  { unfold diagnostico_descarga. rewrite He. by destruct (exc_cls e). }
  split.
  - cbn [descargar_lote]. unfold mbind, M_bind, bind, print_end. fold (marcador i total).
    rewrite descargar_video_eq. cbn [emit yt_dlp_importable fs trace stdin].
    rewrite Himp, Hmk. cbv zeta.
    replace ((trace w ++ [marcador i total]) ++ cabecera_descarga rt u carpeta (py "best"))
      with (trace w ++ marcador i total :: cabecera_descarga rt u carpeta (py "best"))
      by (by rewrite <- app_assoc).
    rewrite Hy, Hd. by rewrite <- app_assoc.
  - destruct (ydl_descarga_eventos rt
                (trace w ++ marcador i total :: cabecera_descarga rt u carpeta (py "best"))
                (opciones_descarga carpeta (py "best")) u) as (resto & Hev & Hresto).
    rewrite Hy in Hev. cbn [snd] in Hev. subst evs.
    rewrite filter_cons_True by reflexivity. rewrite filter_app, cabecera_sin_hitos.
    rewrite filter_cons_True by reflexivity.
    by destruct Hresto as [->|[info ->]].
Qed.

Lemma descargar_lote_interrumpido_witness :
  (descargar_lote rt_ctrl_c 1 2 [url_demo; py "https://x.com/b/status/2"]
     (py "descargas_twitter") (mundo [])).1
  = Raise (mkExc KeyboardInterrupt []).
Proof.
  pose proof (descargar_lote_interrumpido rt_ctrl_c 1 2 url_demo
                [py "https://x.com/b/status/2"] (py "descargas_twitter") (mundo [])
                {[ (false, [py "descargas_twitter"]) := Dir ]}
                (mkExc KeyboardInterrupt [])
                [EvExtract (opciones_descarga (py "descargas_twitter") (py "best")) url_demo true]
                eq_refl eq_refl eq_refl eq_refl) as [H _].
  by rewrite H.
Defined.

(** ** The options of the menu *)

(** With a URL that fails the validation, options 1 and 2 print their
    notice and go back to the menu: one line is read, the quality and the
    destination are not asked for, no directory is created and the library
    is not called. *)
Theorem menu_url_no_valida (rt : runtime) (w : world) (l : str) (resto : list str) :
  stdin w = l :: resto →
  es_url_valida rt (strip l) = false →
  menu_opcion_1 rt w
  = (Ok tt,
     mkWorld resto
       (trace w ++ [ EvPrompt (nl ++ py "Pega la URL del tweet: ");
                     EvPrint (py "  La URL no parece ser de Twitter/X. Intenta de nuevo.") nl ])
       (fs w) (yt_dlp_importable w))
  ∧ menu_opcion_2 rt w
    = (Ok tt,
       mkWorld resto
         (trace w ++ [ EvPrompt (nl ++ py "Pega la URL del tweet: ");
                       EvPrint (py "  La URL no parece ser de Twitter/X.") nl ])
         (fs w) (yt_dlp_importable w)).
Proof.
  intros Hin Hval. destruct w as [pend tr f imp]. cbn [stdin trace fs yt_dlp_importable] in *.
  subst pend. unfold menu_opcion_1, menu_opcion_2. desplegar. rewrite Hval.
  cbv beta iota delta [negb]. by rewrite <- !app_assoc.
Qed.

Lemma menu_url_no_valida_witness :
  menu_opcion_1 rt_ok (mundo [py "https://example.com/status/1"; py "0"])
  = (Ok tt,
     mkWorld [py "0"]
       ([] ++ [ EvPrompt (nl ++ py "Pega la URL del tweet: ");
                EvPrint (py "  La URL no parece ser de Twitter/X. Intenta de nuevo.") nl ])
       ∅ true).
Proof.
  exact (proj1 (menu_url_no_valida rt_ok (mundo [py "https://example.com/status/1"; py "0"])
                  (py "https://example.com/status/1") [py "0"] eq_refl eq_refl)).
Defined.

(** Option 2 with a URL that passes the validation once stripped: the info
    operation runs on the stripped line, after one line was read; with the
    module imported that is one extraction of the stripped URL with
    [download=False], and nothing is read or created besides. *)
Theorem menu_opcion_2_info (rt : runtime) (w : world) (l : str) (resto : list str) :
  stdin w = l :: resto →
  es_url_valida rt (strip l) = true →
  menu_opcion_2 rt w
  = obtener_info rt (strip l)
      (mkWorld resto (trace w ++ [EvPrompt (nl ++ py "Pega la URL del tweet: ")])
         (fs w) (yt_dlp_importable w))
  ∧ stdin (menu_opcion_2 rt w).2 = resto
  ∧ fs (menu_opcion_2 rt w).2 = fs w
  ∧ (yt_dlp_importable w = true →
     ∃ cola,
       trace (menu_opcion_2 rt w).2
       = trace w ++ [ EvPrompt (nl ++ py "Pega la URL del tweet: ");
                      EvPrint (nl ++ py " Obteniendo información del video...") nl;
                      EvExtract opciones_info (strip l) false ] ++ cola
       ∧ filter (λ ev, es_llamada ev = true) cola = []).
Proof.
  intros Hin Hval. destruct w as [pend tr f imp]. cbn [stdin trace fs yt_dlp_importable] in *.
  subst pend.
  assert (Heq : menu_opcion_2 rt (mkWorld (l :: resto) tr f imp)
                = obtener_info rt (strip l)
                    (mkWorld resto (tr ++ [EvPrompt (nl ++ py "Pega la URL del tweet: ")]) f imp)).
  { unfold menu_opcion_2. desplegar. rewrite Hval. reflexivity. }
  rewrite Heq. split; [reflexivity|]. rewrite obtener_info_eq.
  cbn [stdin trace fs yt_dlp_importable]. destruct imp.
  - cbv zeta. destruct (ydl_extract_info _ _ _ _ _) as [info|e].
    + split; [done|]. split; [done|]. intros _. exists (ficha_info info).
      cbn [snd trace]. rewrite <- !app_assoc. split; [reflexivity|].
      apply ficha_info_sin_llamadas.
    + destruct (is_Exception _); (split; [done|]); (split; [done|]); intros _.
      * eexists [_]. cbn [snd trace]. rewrite <- !app_assoc. split; reflexivity.
      * exists []. cbn [snd trace]. rewrite <- !app_assoc. split; reflexivity.
  - split; [done|]. split; [done|]. discriminate.
Qed.

Lemma menu_opcion_2_info_witness :
  stdin (menu_opcion_2 rt_ok (mundo [py "  " ++ url_demo ++ py " "; py "0"])).2 = [py "0"].
Proof.
  exact (proj1 (proj2 (menu_opcion_2_info rt_ok
                         (mundo [py "  " ++ url_demo ++ py " "; py "0"])
                         (py "  " ++ url_demo ++ py " ") [py "0"] eq_refl eq_refl))).
Defined.

Lemma menu_despacho_no_valida (rt : runtime) (opcion : str) (w : world) :
  opcion ∉ [py "0"; py "1"; py "2"; py "3"] →
  menu_despacho rt opcion w = (Ok true, emit (EvPrint (py "Opción no válida.") nl) w).
Proof.
  intros H. rewrite !not_elem_of_cons in H. destruct H as (H0 & H1 & H2 & H3 & _).
  unfold menu_despacho. rewrite !bool_decide_eq_false_2 by done. reflexivity.
Qed.

Lemma menu_bucle_no_validas (rt : runtime) (lineas : list str) (n : nat)
    (cola : list str) (tr : list event) (f : gmap path node) (imp : bool) :
  Forall (λ l, strip l ∉ [py "0"; py "1"; py "2"; py "3"]) lineas →
  menu_bucle rt (length lineas + n) (mkWorld (lineas ++ cola) tr f imp)
  = menu_bucle rt n
      (mkWorld cola (tr ++ concat (map (λ _, turno_no_valido) lineas)) f imp).
Proof.
  intros Hno. revert tr. induction Hno as [|l lineas Hl _ IH]; intros tr.
  - cbn [length map concat app Nat.add]. by rewrite app_nil_r.
  - cbn [length Nat.add app menu_bucle]. rewrite menu_paso_eq.
    cbn [stdin trace fs yt_dlp_importable].
    rewrite (menu_despacho_no_valida rt (strip l) _ Hl).
    unfold emit. cbn [stdin trace fs yt_dlp_importable].
    rewrite IH. cbn [map concat]. unfold turno_no_valido at 2. by rewrite <- !app_assoc.
Qed.

(** An option that, stripped, is none of "0", "1", "2", "3" only gets the
    answer "Opción no válida." and the menu again. After any number of those
    the menu ends with [EOFError] when the input is exhausted, and ends
    normally at the first "0", the lines that follow it being left unread;
    the file system is not touched. *)
Theorem menu_opciones_no_validas (rt : runtime) (w : world) (lineas : list str) :
  Forall (λ l, strip l ∉ [py "0"; py "1"; py "2"; py "3"]) lineas →
  (stdin w = lineas →
   menu_interactivo rt w
   = Some (Raise (mkExc EOFError (py "EOF when reading a line")),
           mkWorld []
             (trace w ++ cabecera_menu ++ concat (map (λ _, turno_no_valido) lineas)
                ++ menu_rotulo)
             (fs w) (yt_dlp_importable w)))
  ∧ (∀ l0 resto,
       stdin w = lineas ++ l0 :: resto →
       strip l0 = py "0" →
       menu_interactivo rt w
       = Some (Ok tt,
               mkWorld resto
                 (trace w ++ cabecera_menu ++ concat (map (λ _, turno_no_valido) lineas)
                    ++ menu_rotulo ++ [EvPrint (nl ++ py " ¡Hasta luego!") nl])
                 (fs w) (yt_dlp_importable w))).
Proof.
  intros Hno. destruct w as [pend tr f imp]. cbn [stdin trace fs yt_dlp_importable].
  assert (Hcab : ∀ p, menu_cabecera (mkWorld p tr f imp)
                      = (Ok tt, mkWorld p (tr ++ cabecera_menu) f imp)).
  { intros p. unfold menu_cabecera, cabecera_menu. desplegar. by rewrite <- !app_assoc. }
  split.
  - intros ->. unfold menu_interactivo. rewrite Hcab. cbn [stdin].
    replace (S (length lineas)) with (length lineas + 1)%nat by lia.
    rewrite <- (app_nil_r lineas) at 2.
    rewrite (menu_bucle_no_validas rt lineas 1 [] _ f imp Hno).
    cbn [menu_bucle]. rewrite menu_paso_eq. cbn [stdin trace fs yt_dlp_importable].
    by rewrite <- !app_assoc.
  - intros l0 resto -> H0. unfold menu_interactivo. rewrite Hcab. cbn [stdin].
    replace (S (length (lineas ++ l0 :: resto)))
      with (length lineas + S (S (length resto)))%nat
      by (rewrite length_app; cbn [length]; lia).
    rewrite (menu_bucle_no_validas rt lineas _ (l0 :: resto) _ f imp Hno).
    cbn [menu_bucle]. rewrite menu_paso_eq. cbn [stdin trace fs yt_dlp_importable].
    rewrite H0. unfold menu_despacho. rewrite bool_decide_eq_true_2 by reflexivity.
    desplegar. by rewrite <- !app_assoc.
Qed.

Lemma menu_opciones_no_validas_witness :
  menu_interactivo rt_ok (mundo [py "9"; py "salir"; py " 0 "; py "1"])
  = Some (Ok tt,
          mkWorld [py "1"]
            ([] ++ cabecera_menu
               ++ concat (map (λ _, turno_no_valido) [py "9"; py "salir"])
               ++ menu_rotulo ++ [EvPrint (nl ++ py " ¡Hasta luego!") nl])
            ∅ true).
Proof.
  apply (proj2 (menu_opciones_no_validas rt_ok
                  (mundo [py "9"; py "salir"; py " 0 "; py "1"]) [py "9"; py "salir"]
                  ltac:(repeat constructor; vm_compute; intros H;
                        repeat (apply elem_of_cons in H as [H|H]; [discriminate H|]);
                        by apply elem_of_nil in H))
          (py " 0 ") [py "1"]).
  - reflexivity.
  - vm_compute; reflexivity.
Defined.

(** ** The program comes to an end *)

(** Every turn of the menu reads at least one line before it asks for
    another turn, so on an input of n lines the loop makes at most n + 1
    turns: whatever the arguments, the input, the library and the file
    system, the program ends (normally or by an exception). *)
Theorem programa_termina (rt : runtime) (argv : list str) (w : world) :
  (∀ b w', menu_paso rt w = (Ok b, w') → (length (stdin w') < length (stdin w))%nat)
  ∧ is_Some (menu_interactivo rt w)
  ∧ is_Some (main rt argv w).
Proof.
  split; [|split].
  - intros b w'. apply menu_paso_lee.
  - apply menu_interactivo_total.
  - apply main_total.
Qed.



(** ** An installation that does not make the module importable *)

(** The start-up check does not try the import again after the
    installation. When the module is missing, the package manager returns,
    and the module still cannot be imported, the check returns [True] all
    the same, and the one-shot download of a valid URL then fails at its own
    import: the [ImportError] is not caught and ends the program, after the
    two lines of the installation and nothing else. *)
Theorem main_modulo_no_importable (rt : runtime) (prog url : str) (w : world) (u : unit) :
  yt_dlp_importable w = false →
  pip_install rt (trace w ++ [EvPrint (py "Instalando yt-dlp...") nl]) = Ok u →
  pip_deja_importable rt (trace w ++ [EvPrint (py "Instalando yt-dlp...") nl]) = false →
  es_url_valida rt url = true →
  (instalar_ytdlp rt w).1 = Ok true
  ∧ main rt [prog; url] w
    = Some (Raise (mkExc ImportError (py "No module named 'yt_dlp'")),
            mkWorld (stdin w)
              (trace w ++ [ EvPrint (py "Instalando yt-dlp...") nl; EvPip;
                            EvPrint (py "yt-dlp instalado correctamente." ++ nl) nl ])
              (fs w) false).
Proof.
  intros Himp Hu Hd Hval. unfold main. rewrite instalar_ytdlp_eq, Himp. cbv zeta.
  rewrite Hu, Hd. split; [reflexivity|].
  cbn [lookup list_lookup default]. rewrite Hval.
  unfold mbind, M_bind, bind. rewrite descargar_video_eq.
  cbn [yt_dlp_importable]. by rewrite <- app_assoc.
Qed.

Lemma main_modulo_no_importable_witness :
  main rt_pip_en_vano [py "twitter_downloader.py"; url_demo] (mundo_sin_modulo [])
  = Some (Raise (mkExc ImportError (py "No module named 'yt_dlp'")),
          mkWorld []
            [ EvPrint (py "Instalando yt-dlp...") nl; EvPip;
              EvPrint (py "yt-dlp instalado correctamente." ++ nl) nl ]
            ∅ false).
Proof.
  exact (proj2 (main_modulo_no_importable rt_pip_en_vano (py "twitter_downloader.py")
                  url_demo (mundo_sin_modulo []) tt eq_refl eq_refl eq_refl
                  ltac:(vm_compute; reflexivity))).
Defined.
